(** * Forecast client (PredictDemand.jsx): request, response handling, views *)

From Stdlib Require Import List String Ascii Bool Arith ZArith Lia.
From Stdlib Require Import PrimFloat SpecFloat FloatOps FloatAxioms.
From Stdlib Require Import DecimalString.
From Stdlib Require Import Sorting.Sorted Sorting.Permutation.
Import ListNotations.
Local Open Scope string_scope.
Local Open Scope list_scope.

(* The decimal literals of the source (0.05, 0.95) denote the nearest double,
   here as in JavaScript. *)
#[local] Set Warnings "-inexact-float,-register-all".

(** ** JavaScript values

    Values as they come out of [JSON.parse] or go into [JSON.stringify].
    Numbers are IEEE doubles; an object is the list of its own enumerable
    properties in enumeration order, read by first match. *)
Module Js.

Inductive JsVal : Type :=
| JUndefined
| JNull
| JBool (b : bool)
| JNum (f : float)
| JStr (s : string)
| JArr (items : list JsVal)
| JObj (props : list (string * JsVal)).

(** [0], [-0] and [NaN] are the falsy numbers. *)
Definition num_falsy (f : float) : bool :=
  PrimFloat.eqb f 0%float || PrimFloat.is_nan f.

(** ToBoolean. *)
Definition truthy (v : JsVal) : bool :=
  match v with
  | JUndefined | JNull => false
  | JBool b => b
  | JNum f => negb (num_falsy f)
  | JStr s => negb (String.eqb s "")
  | JArr _ | JObj _ => true
  end.

Definition falsy (v : JsVal) : bool := negb (truthy v).

(** [a || b] on values. *)
Definition js_or (a b : JsVal) : JsVal := if truthy a then a else b.

Fixpoint assoc {A : Type} (k : string) (l : list (string * A)) : option A :=
  match l with
  | [] => None
  | (k', a) :: rest => if String.eqb k k' then Some a else assoc k rest
  end.

Definition keys {A : Type} (l : list (string * A)) : list string := map fst l.

(** Evaluation that may throw: [None] stands for an uncaught TypeError. *)
Definition bind {A B : Type} (m : option A) (f : A -> option B) : option B :=
  match m with
  | Some a => f a
  | None => None
  end.

Notation "x <- m ;; k" := (bind m (fun x => k))
  (at level 61, m at next level, right associativity).

Fixpoint mapM {A B : Type} (f : A -> option B) (l : list A) : option (list B) :=
  match l with
  | [] => Some []
  | a :: rest => b <- f a ;; bs <- mapM f rest ;; Some (b :: bs)
  end.

(** [v.k] for a property name [k] that no built-in prototype defines and that
    is neither [length] nor an index (every name the component reads is such):
    reading from [undefined] or [null] throws, a missing property is
    [undefined]. *)
Definition getProp (v : JsVal) (k : string) : option JsVal :=
  match v with
  | JUndefined | JNull => None
  | JObj props =>
      match assoc k props with
      | Some x => Some x
      | None => Some JUndefined
      end
  | _ => Some JUndefined
  end.

(** [v.map(f)]: only arrays have [map]. *)
Definition array_map {B : Type} (f : JsVal -> option B) (v : JsVal)
  : option (list B) :=
  match v with
  | JArr items => mapM f items
  | _ => None
  end.

Definition nat_to_string (n : nat) : string :=
  NilEmpty.string_of_uint (Nat.to_uint n).

Fixpoint indexed {A : Type} (i : nat) (l : list A) : list (string * A) :=
  match l with
  | [] => []
  | a :: rest => (nat_to_string i, a) :: indexed (S i) rest
  end.

Fixpoint chars (s : string) : list JsVal :=
  match s with
  | EmptyString => []
  | String c rest => JStr (String c EmptyString) :: chars rest
  end.

(** [s.split('-')[0]] *)
Fixpoint beforeDash (s : string) : string :=
  match s with
  | EmptyString => EmptyString
  | String c rest =>
      if Ascii.eqb c "-" then EmptyString else String c (beforeDash rest)
  end.

(** [[...new Set(l)]]: the first occurrences, in order. *)
Fixpoint uniq (l : list string) : list string :=
  match l with
  | [] => []
  | s :: rest => s :: filter (fun t => negb (String.eqb t s)) (uniq rest)
  end.

Fixpoint insertSorted (s : string) (l : list string) : list string :=
  match l with
  | [] => [s]
  | t :: rest => if String.leb s t then s :: l else t :: insertSorted s rest
  end.

(** [l.sort()] on strings: ascending by code units. *)
Definition sortStrings (l : list string) : list string :=
  fold_right insertSorted [] l.

(** [Object.entries(v)] for a value that is neither [undefined] nor [null]. *)
Definition objectEntries (v : JsVal) : option (list (string * JsVal)) :=
  match v with
  | JUndefined | JNull => None
  | JObj props => Some props
  | JArr items => Some (indexed 0 items)
  | JStr s => Some (indexed 0 (chars s))
  | JBool _ | JNum _ => Some []
  end.

(** What the receiver of [JSON.stringify(v)] parses back: properties holding
    [undefined] are dropped, [undefined] inside an array and the numbers that
    are not finite become [null], [-0] becomes [0]. *)
Definition json_num (f : float) : JsVal :=
  if PrimFloat.is_nan f || PrimFloat.is_infinity f then JNull
  else if PrimFloat.eqb f 0%float then JNum 0%float
  else JNum f.

Fixpoint json_of (v : JsVal) : JsVal :=
  match v with
  | JUndefined => JUndefined
  | JNull => JNull
  | JBool b => JBool b
  | JNum f => json_num f
  | JStr s => JStr s
  | JArr items =>
      JArr (map (fun x => match x with
                          | JUndefined => JNull
                          | _ => json_of x
                          end) items)
  | JObj props =>
      JObj ((fix go (l : list (string * JsVal)) : list (string * JsVal) :=
               match l with
               | [] => []
               | (k, x) :: rest =>
                   match x with
                   | JUndefined => go rest
                   | _ => (k, json_of x) :: go rest
                   end
               end) props)
  end.

(** The built-ins of the host engine that the component calls and whose
    result is engine text or a parsed number. *)
Class Engine : Type := {
  (** [Number.prototype.toFixed] *)
  toFixed : float -> nat -> string;
  (** [Number::toString] *)
  numberToString : float -> string;
  (** StringToNumber *)
  stringToNumber : string -> float;
  (** message of the TypeError raised by reading property [k] of [v],
      [v] being [undefined] or [null] *)
  typeErrorMessage : JsVal -> string -> string;
  (** message of the TypeError raised by converting [v] to a primitive
      value, [v] having no callable [toString] to go by *)
  conversionErrorMessage : JsVal -> string
}.

(** An engine to evaluate closed examples with; which one is immaterial to
    an example that reaches none of the five built-ins. *)
Definition plainEngine : Engine := {|
  toFixed := fun _ _ => "";
  numberToString := fun _ => "";
  stringToNumber := fun _ => PrimFloat.nan;
  typeErrorMessage := fun _ _ => "";
  conversionErrorMessage := fun _ => ""
|}.

Section WithEngine.
Context {E : Engine}.

(** ToString; [None] when it throws. The values at hand come from JSON, so
    an own [toString] property of an object is never callable: it shadows
    [Object.prototype.toString], and neither it nor [valueOf] (own and not
    callable, or inherited and returning the object) yields a primitive
    value, which is a TypeError. An array is joined with commas, so it
    throws when one of its elements does. *)
Fixpoint ToString (v : JsVal) : option string :=
  match v with
  | JUndefined => Some "undefined"
  | JNull => Some "null"
  | JBool true => Some "true"
  | JBool false => Some "false"
  | JNum f => Some (numberToString f)
  | JStr s => Some s
  | JArr items =>
      parts <-
        (fix go (l : list JsVal) : option (list string) :=
           match l with
           | [] => Some []
           | x :: rest =>
               part <- match x with
                       | JUndefined | JNull => Some ""
                       | _ => ToString x
                       end ;;
               parts <- go rest ;;
               Some (part :: parts)
           end) items ;;
      Some (String.concat "," parts)
  | JObj props =>
      match assoc "toString" props with
      | Some _ => None
      | None => Some "[object Object]"
      end
  end.

(** ToNumber; [None] when it throws: an object or an array goes through its
    string. *)
Definition ToNumber (v : JsVal) : option float :=
  match v with
  | JUndefined => Some PrimFloat.nan
  | JNull => Some 0%float
  | JBool true => Some 1%float
  | JBool false => Some 0%float
  | JNum f => Some f
  | JStr s => Some (stringToNumber s)
  | JArr _ | JObj _ => text <- ToString v ;; Some (stringToNumber text)
  end.

(** [a * b] *)
Definition js_mul (a b : JsVal) : option float :=
  m <- ToNumber a ;;
  n <- ToNumber b ;;
  Some (PrimFloat.mul m n).

(** [v.toFixed(d)]: only numbers have [toFixed]. *)
Definition callToFixed (v : JsVal) (d : nat) : option string :=
  match v with
  | JNum f => Some (toFixed f d)
  | _ => None
  end.

End WithEngine.

End Js.
Import Js.

(** ** The component [PredictDemand] *)
Module PredictDemand.

Definition AVAILABLE_EXTRA_VARS : list string :=
  [ "age_60_69_ratio";
    "total_population";
    "age_60_69";
    "age_70_79";
    "age_80_84";
    "age_85_plus" ].

(** The [useState] cells. [error] is [null] or a message; [result] is [null]
    or whatever [data.data] was. *)
Record State : Type := {
  selectedExtraVars : list string;
  growth : string;
  yearlySeasonality : bool;
  seasonalityMode : string;
  changepointPriorScale : float;
  seasonalityPriorScale : float;
  regressorPriorScale : float;
  loading : bool;
  error : option string;
  result : JsVal;
  tabValue : nat
}.

Definition initial : State := {|
  selectedExtraVars := [];
  growth := "linear";
  yearlySeasonality := true;
  seasonalityMode := "additive";
  changepointPriorScale := 0.05%float;
  seasonalityPriorScale := 10.0%float;
  regressorPriorScale := 0.05%float;
  loading := false;
  error := None;
  result := JNull;
  tabValue := 0
|}.

(** The object handed to [JSON.stringify] in [fetchPrediction]. *)
Definition requestObject (st : State) : JsVal :=
  JObj
    [ ("extra_vars", JArr (map JStr (selectedExtraVars st)));
      ("growth", JStr (growth st));
      ("yearly_seasonality", JBool (yearlySeasonality st));
      ("weekly_seasonality", JBool false);
      ("daily_seasonality", JBool false);
      ("seasonality_mode", JStr (seasonalityMode st));
      ("changepoint_prior_scale", JNum (changepointPriorScale st));
      ("seasonality_prior_scale", JNum (seasonalityPriorScale st));
      ("interval_width", JNum 0.95%float);
      ("regressor_prior_scale", JNum (regressorPriorScale st));
      ("regressor_mode", JStr (seasonalityMode st)) ].

(** The request body as the server parses it. *)
Definition requestBody (st : State) : JsVal := json_of (requestObject st).

Definition fields (v : JsVal) : list string :=
  match v with
  | JObj props => keys props
  | _ => []
  end.

(** [prev.includes(varName) ? prev.filter(v => v !== varName)
                            : [...prev, varName]] *)
Definition toggle (varName : string) (prev : list string) : list string :=
  if existsb (String.eqb varName) prev
  then filter (fun v => negb (String.eqb v varName)) prev
  else prev ++ [varName].

Definition handleExtraVarChange (varName : string) (st : State) : State := {|
  selectedExtraVars := toggle varName (selectedExtraVars st);
  growth := growth st;
  yearlySeasonality := yearlySeasonality st;
  seasonalityMode := seasonalityMode st;
  changepointPriorScale := changepointPriorScale st;
  seasonalityPriorScale := seasonalityPriorScale st;
  regressorPriorScale := regressorPriorScale st;
  loading := loading st;
  error := error st;
  result := result st;
  tabValue := tabValue st
|}.

(** What every handler keeps true of the selection. *)
Definition selection_ok (st : State) : Prop :=
  NoDup (selectedExtraVars st)
  /\ incl (selectedExtraVars st) AVAILABLE_EXTRA_VARS.

(** [parsed || fallback] on numbers. *)
Definition num_or (parsed fallback : float) : float :=
  if num_falsy parsed then fallback else parsed.

(** What [fetch] and [response.json()] come to: [fetch] rejects with an error
    of the given message, or a response arrives with a status code and a body
    on which [json()] either rejects (left, the message) or yields the parsed
    value (right). *)
Inductive HttpOutcome : Type :=
| FetchRejected (message : string)
| Responded (status : nat) (body : string + JsVal).

(** [response.ok] *)
Definition ok (status : nat) : bool :=
  ((200 <=? status) && (status <=? 299))%nat.

Definition setLoadingErrorResult
  (l : bool) (e : option string) (r : JsVal) (st : State) : State := {|
  selectedExtraVars := selectedExtraVars st;
  growth := growth st;
  yearlySeasonality := yearlySeasonality st;
  seasonalityMode := seasonalityMode st;
  changepointPriorScale := changepointPriorScale st;
  seasonalityPriorScale := seasonalityPriorScale st;
  regressorPriorScale := regressorPriorScale st;
  loading := l;
  error := e;
  result := r;
  tabValue := tabValue st
|}.

(** [fetchPrediction] before the first [await]. *)
Definition fetchPrediction_begin (st : State) : State :=
  setLoadingErrorResult true None JNull st.

(** [data.status === 'success'] *)
Definition is_success (status_field : JsVal) : bool :=
  match status_field with
  | JStr s => String.eqb s "success"
  | _ => false
  end.

Section WithEngine.
Context {E : Engine}.

(** The message of what [throw new Error(message || fallback)] raises: the
    text of the argument, or, when the argument has no text, the message of
    the TypeError its conversion raises instead. *)
Definition errorMessage (message : JsVal) (fallback : string) : string :=
  match ToString (js_or message (JStr fallback)) with
  | Some text => text
  | None => conversionErrorMessage (js_or message (JStr fallback))
  end.

(** The [try] block of [fetchPrediction]: left, the message of the error the
    [catch] receives; right, the value given to [setResult]. *)
Definition tryBlock (o : HttpOutcome) : string + JsVal :=
  match o with
  | FetchRejected m => inl m
  | Responded status (inl m) => inl m
  | Responded status (inr data) =>
      if negb (ok status) then
        match getProp data "message" with
        | None => inl (typeErrorMessage data "message")
        | Some message =>
            inl (errorMessage message
                   ("HTTP error! status: " ++ nat_to_string status))
        end
      else
        match getProp data "status" with
        | None => inl (typeErrorMessage data "status")
        | Some status_field =>
            if is_success status_field then
              match getProp data "data" with
              | None => inl (typeErrorMessage data "data")
              | Some payload => inr payload
              end
            else
              match getProp data "message" with
              | None => inl (typeErrorMessage data "message")
              | Some message => inl (errorMessage message "Prediction failed")
              end
        end
  end.

(** [fetchPrediction] from the first [await] on, [catch] and [finally]
    included. *)
Definition fetchPrediction_settle (o : HttpOutcome) (st : State) : State :=
  match tryBlock o with
  | inl message => setLoadingErrorResult false (Some message) (result st) st
  | inr payload => setLoadingErrorResult false (error st) payload st
  end.

Definition fetchPrediction (st : State) (o : HttpOutcome) : State :=
  fetchPrediction_settle o (fetchPrediction_begin st).

(** The outcomes on which [setResult(data.data)] is reached: an ok response
    whose parsed body has [status === 'success']. *)
Definition succeeded (o : HttpOutcome) : bool :=
  match o with
  | Responded status (inr data) =>
      ok status
      && match getProp data "status" with
         | Some status_field => is_success status_field
         | None => false
         end
  | _ => false
  end.

(** [{error && <Alert>{error}</Alert>}]: the text of the alert, if one is
    rendered. *)
Definition errorAlert (st : State) : option string :=
  match error st with
  | Some m => if String.eqb m "" then None else Some m
  | None => None
  end.

(** The handlers the rendered controls are wired to. The [k]-th checkbox is
    the one [AVAILABLE_EXTRA_VARS.map] renders for its [k]-th name; a text
    field event carries [parseFloat(e.target.value)]. *)
Inductive Event : Type :=
| ToggleCheckbox (k : nat)
| SelectGrowth (value : string)
| SelectSeasonalityMode (value : string)
| TypeChangepointPriorScale (parsed : float)
| TypeSeasonalityPriorScale (parsed : float)
| TypeRegressorPriorScale (parsed : float)
| CheckYearlySeasonality (checked : bool)
| ChangeTab (newValue : nat)
| ClickStart
| Settled (o : HttpOutcome).

Definition step (st : State) (e : Event) : State :=
  match e with
  | ToggleCheckbox k =>
      match nth_error AVAILABLE_EXTRA_VARS k with
      | Some varName => handleExtraVarChange varName st
      | None => st
      end
  | SelectGrowth value => {|
      selectedExtraVars := selectedExtraVars st;
      growth := value;
      yearlySeasonality := yearlySeasonality st;
      seasonalityMode := seasonalityMode st;
      changepointPriorScale := changepointPriorScale st;
      seasonalityPriorScale := seasonalityPriorScale st;
      regressorPriorScale := regressorPriorScale st;
      loading := loading st;
      error := error st;
      result := result st;
      tabValue := tabValue st |}
  | SelectSeasonalityMode value => {|
      selectedExtraVars := selectedExtraVars st;
      growth := growth st;
      yearlySeasonality := yearlySeasonality st;
      seasonalityMode := value;
      changepointPriorScale := changepointPriorScale st;
      seasonalityPriorScale := seasonalityPriorScale st;
      regressorPriorScale := regressorPriorScale st;
      loading := loading st;
      error := error st;
      result := result st;
      tabValue := tabValue st |}
  | TypeChangepointPriorScale parsed => {|
      selectedExtraVars := selectedExtraVars st;
      growth := growth st;
      yearlySeasonality := yearlySeasonality st;
      seasonalityMode := seasonalityMode st;
      changepointPriorScale := num_or parsed 0.05%float;
      seasonalityPriorScale := seasonalityPriorScale st;
      regressorPriorScale := regressorPriorScale st;
      loading := loading st;
      error := error st;
      result := result st;
      tabValue := tabValue st |}
  | TypeSeasonalityPriorScale parsed => {|
      selectedExtraVars := selectedExtraVars st;
      growth := growth st;
      yearlySeasonality := yearlySeasonality st;
      seasonalityMode := seasonalityMode st;
      changepointPriorScale := changepointPriorScale st;
      seasonalityPriorScale := num_or parsed 10.0%float;
      regressorPriorScale := regressorPriorScale st;
      loading := loading st;
      error := error st;
      result := result st;
      tabValue := tabValue st |}
  | TypeRegressorPriorScale parsed => {|
      selectedExtraVars := selectedExtraVars st;
      growth := growth st;
      yearlySeasonality := yearlySeasonality st;
      seasonalityMode := seasonalityMode st;
      changepointPriorScale := changepointPriorScale st;
      seasonalityPriorScale := seasonalityPriorScale st;
      regressorPriorScale := num_or parsed 0.05%float;
      loading := loading st;
      error := error st;
      result := result st;
      tabValue := tabValue st |}
  | CheckYearlySeasonality checked => {|
      selectedExtraVars := selectedExtraVars st;
      growth := growth st;
      yearlySeasonality := checked;
      seasonalityMode := seasonalityMode st;
      changepointPriorScale := changepointPriorScale st;
      seasonalityPriorScale := seasonalityPriorScale st;
      regressorPriorScale := regressorPriorScale st;
      loading := loading st;
      error := error st;
      result := result st;
      tabValue := tabValue st |}
  | ChangeTab newValue => {|
      selectedExtraVars := selectedExtraVars st;
      growth := growth st;
      yearlySeasonality := yearlySeasonality st;
      seasonalityMode := seasonalityMode st;
      changepointPriorScale := changepointPriorScale st;
      seasonalityPriorScale := seasonalityPriorScale st;
      regressorPriorScale := regressorPriorScale st;
      loading := loading st;
      error := error st;
      result := result st;
      tabValue := newValue |}
  | ClickStart =>
      (* the button is disabled while loading *)
      if loading st then st else fetchPrediction_begin st
  | Settled o => fetchPrediction_settle o st
  end.

Definition run (events : list Event) : State := fold_left step events initial.

End WithEngine.

(** *** What the render reads from [result] *)

(** [colors.blueAccent[500]], [colors.greenAccent[500]] of the theme. *)
Inductive Color : Type := blueAccent500 | greenAccent500.

Record Point : Type := { x : JsVal; y : JsVal }.

Record Serie : Type := { id : string; data : list Point; color : Color }.

(** [item => ({ x: item.xk, y: item.yk })] *)
Definition readPoint (xk yk : string) (item : JsVal) : option Point :=
  a <- getProp item xk ;;
  b <- getProp item yk ;;
  Some {| x := a; y := b |}.

Definition prepareForecastChartData (result : JsVal) : option (list Serie) :=
  if falsy result then Some []
  else
    forecast_data <- getProp result "forecast_data" ;;
    historical_actual <- getProp result "historical_actual" ;;
    actualData <- array_map (readPoint "date" "actual") historical_actual ;;
    predictedData <- array_map (readPoint "date" "predicted") forecast_data ;;
    Some [ {| id := "Actual"; data := actualData; color := blueAccent500 |};
           {| id := "Predicted"; data := predictedData;
              color := greenAccent500 |} ].

Definition prepareComponentChartData (result : JsVal) (componentName : string)
  : option (list Serie) :=
  if falsy result then Some []
  else
    components <- getProp result "components" ;;
    if falsy components then Some []
    else
      componentData <- getProp components componentName ;;
      if falsy componentData then Some []
      else
        points <- array_map (readPoint "date" "value") componentData ;;
        Some [ {| id := componentName; data := points;
                  color := blueAccent500 |} ].

(** The year ticks of a list of date strings: for each distinct year, the
    first date that starts with it. *)
Definition yearTicksOf (allDates : list string) : list string :=
  let uniqueYears := uniq (map beforeDash allDates) in
  sortStrings
    (map (fun year =>
            match find (String.prefix year) allDates with
            | Some firstMonth =>
                if String.eqb firstMonth "" then (year ++ "-01-01")%string
                else firstMonth
            | None => (year ++ "-01-01")%string
            end)
         uniqueYears).

(** [date.split] and [date.startsWith] exist on strings only. *)
Definition asString (v : JsVal) : option string :=
  match v with
  | JStr s => Some s
  | _ => None
  end.

Definition yearTicks (allDates : list JsVal) : option (list string) :=
  dates <- mapM asString allDates ;;
  Some (yearTicksOf dates).

Definition getYearTicks (data : list Serie) : option (list string) :=
  yearTicks (flat_map (fun series => map x (PredictDemand.data series)) data).

Definition getComponentYearTicks (result : JsVal) (componentName : string)
  : option (list string) :=
  if falsy result then Some []
  else
    components <- getProp result "components" ;;
    if falsy components then Some []
    else
      componentData <- getProp components componentName ;;
      if falsy componentData then Some []
      else
        allDates <- array_map (fun item => getProp item "date") componentData ;;
        yearTicks allDates.

Record CiData : Type := { ci_upper : list Point; ci_lower : list Point }.

(** The memoised [ciData]; the inner [None] is [null]. *)
Definition ciData (result : JsVal) : option (option CiData) :=
  if falsy result then Some None
  else
    forecast_data <- getProp result "forecast_data" ;;
    upperData <- array_map (readPoint "date" "upper") forecast_data ;;
    lowerData <- array_map (readPoint "date" "lower") forecast_data ;;
    Some (Some {| ci_upper := upperData; ci_lower := lowerData |}).

(** [{result.components.extra_regressors &&
      <Tab label="Extra Regressors" />}] *)
Definition extraRegressorsTab (result : JsVal) : option bool :=
  components <- getProp result "components" ;;
  extra_regressors <- getProp components "extra_regressors" ;;
  Some (truthy extra_regressors).

(** The charts of the Extra Regressors panel, one per entry, each under its
    [varName]; the tab selection apart. *)
Definition extraRegressorCharts (result : JsVal) : option (list Serie) :=
  components <- getProp result "components" ;;
  extra_regressors <- getProp components "extra_regressors" ;;
  if truthy extra_regressors then
    entries <- objectEntries extra_regressors ;;
    mapM (fun entry : string * JsVal =>
            points <- array_map (readPoint "date" "value") (snd entry) ;;
            Some {| id := fst entry; data := points;
                    color := blueAccent500 |})
         entries
  else Some [].

(** The [tickValues] of those charts, one list per entry. *)
Definition extraRegressorTicks (result : JsVal) : option (list (list string)) :=
  components <- getProp result "components" ;;
  extra_regressors <- getProp components "extra_regressors" ;;
  if truthy extra_regressors then
    entries <- objectEntries extra_regressors ;;
    mapM (fun entry : string * JsVal =>
            allDates <- array_map (fun item => getProp item "date")
                          (snd entry) ;;
            yearTicks allDates)
         entries
  else Some [].

(** The four tiles of the Cross-Validation Metrics paper. *)
Record MetricTiles : Type := {
  MAPE : string;
  MAE : string;
  RMSE : string;
  Coverage : string
}.

Section WithEngine.
Context {E : Engine}.

(** [coverage ? (coverage * 100).toFixed(1) + '%' : 'N/A'] *)
Definition coverageTile (coverage : JsVal) : option string :=
  if truthy coverage
  then
    percent <- js_mul coverage (JNum 100%float) ;;
    Some (toFixed percent 1 ++ "%")%string
  else Some "N/A".

Definition metricTiles (result : JsVal) : option MetricTiles :=
  cv_metrics <- getProp result "cv_metrics" ;;
  mape <- getProp cv_metrics "mape" ;;
  mapePercent <- js_mul mape (JNum 100%float) ;;
  mae <- getProp cv_metrics "mae" ;;
  maeText <- callToFixed mae 2 ;;
  rmse <- getProp cv_metrics "rmse" ;;
  rmseText <- callToFixed rmse 2 ;;
  coverage <- getProp cv_metrics "coverage" ;;
  coverageText <- coverageTile coverage ;;
  Some {| MAPE := (toFixed mapePercent 2 ++ "%")%string;
          MAE := maeText;
          RMSE := rmseText;
          Coverage := coverageText |}.

(** Everything the render takes from [result]. *)
Record Bindings : Type := {
  forecastChart : option (list Serie);
  forecastTicks : option (list string);
  confidenceBand : option (option CiData);
  trendChart : option (list Serie);
  trendTicks : option (list string);
  yearlyChart : option (list Serie);
  yearlyTicks : option (list string);
  extraTab : option bool;
  extraCharts : option (list Serie);
  extraTicks : option (list (list string));
  tiles : option MetricTiles
}.

Definition bindings (result : JsVal) : Bindings := {|
  forecastChart := prepareForecastChartData result;
  forecastTicks :=
    chartData <- prepareForecastChartData result ;; getYearTicks chartData;
  confidenceBand := ciData result;
  trendChart := prepareComponentChartData result "trend";
  trendTicks := getComponentYearTicks result "trend";
  yearlyChart := prepareComponentChartData result "yearly";
  yearlyTicks := getComponentYearTicks result "yearly";
  extraTab := extraRegressorsTab result;
  extraCharts := extraRegressorCharts result;
  extraTicks := extraRegressorTicks result;
  tiles := metricTiles result
|}.

End WithEngine.

End PredictDemand.
Import PredictDemand.

(** ** The response contract: [ForecastResult] and its JSON form *)
Module Contract.

Record ActualPoint : Type := { actual_date : string; actual : float }.

Record ForecastPoint : Type := {
  forecast_date : string;
  predicted : float;
  lower : float;
  upper : float
}.

Record ValuePoint : Type := { date : string; value : float }.

Record Components : Type := {
  trend : list ValuePoint;
  yearly : option (list ValuePoint);
  extra_regressors : option (list (string * list ValuePoint))
}.

Record CVMetrics : Type := {
  mape : float;
  mae : float;
  rmse : float;
  coverage : option float
}.

Record ForecastResult : Type := {
  historical_actual : list ActualPoint;
  forecast_data : list ForecastPoint;
  components : Components;
  cv_metrics : CVMetrics
}.

Definition optional {A : Type} (k : string) (f : A -> JsVal) (o : option A)
  : list (string * JsVal) :=
  match o with
  | Some a => [(k, f a)]
  | None => []
  end.

Definition jsonActual (p : ActualPoint) : JsVal :=
  JObj [("date", JStr (actual_date p)); ("actual", JNum (actual p))].

Definition jsonForecast (p : ForecastPoint) : JsVal :=
  JObj [("date", JStr (forecast_date p)); ("predicted", JNum (predicted p));
        ("lower", JNum (lower p)); ("upper", JNum (upper p))].

Definition jsonValue (p : ValuePoint) : JsVal :=
  JObj [("date", JStr (date p)); ("value", JNum (value p))].

Definition jsonSeries (l : list ValuePoint) : JsVal := JArr (map jsonValue l).

Definition jsonRegressors (l : list (string * list ValuePoint)) : JsVal :=
  JObj (map (fun e => (fst e, jsonSeries (snd e))) l).

Definition jsonComponents (c : Components) : JsVal :=
  JObj ([("trend", jsonSeries (trend c))]
        ++ optional "yearly" jsonSeries (yearly c)
        ++ optional "extra_regressors" jsonRegressors (extra_regressors c)).

Definition jsonMetrics (m : CVMetrics) : JsVal :=
  JObj ([("mape", JNum (mape m)); ("mae", JNum (mae m));
         ("rmse", JNum (rmse m))]
        ++ optional "coverage" JNum (coverage m)).

(** The chart point of a component value: its date against its value. *)
Definition valuePoint (p : ValuePoint) : Point :=
  {| x := JStr (date p); y := JNum (value p) |}.

(** The [data] of a success response. *)
Definition jsonResult (r : ForecastResult) : JsVal :=
  JObj [("historical_actual", JArr (map jsonActual (historical_actual r)));
        ("forecast_data", JArr (map jsonForecast (forecast_data r)));
        ("components", jsonComponents (components r));
        ("cv_metrics", jsonMetrics (cv_metrics r))].

(** The success response itself. *)
Definition successBody (r : ForecastResult) : JsVal :=
  JObj [("status", JStr "success"); ("data", jsonResult r)].

(** *** Cutting a value down to the contract's fields *)

Definition pick (spec : list (string * (JsVal -> JsVal))) (v : JsVal) : JsVal :=
  match v with
  | JObj props =>
      JObj (flat_map (fun kv : string * JsVal =>
                        match assoc (fst kv) spec with
                        | Some f => [(fst kv, f (snd kv))]
                        | None => []
                        end) props)
  | _ => v
  end.

Definition each (f : JsVal -> JsVal) (v : JsVal) : JsVal :=
  match v with
  | JArr items => JArr (map f items)
  | _ => v
  end.

Definition eachEntry (f : JsVal -> JsVal) (v : JsVal) : JsVal :=
  match v with
  | JObj props => JObj (map (fun kv => (fst kv, f (snd kv))) props)
  | JArr items => JArr (map f items)
  | _ => v
  end.

Definition keep (v : JsVal) : JsVal := v.

Definition only (names : list string) : JsVal -> JsVal :=
  pick (map (fun k => (k, keep)) names).

Definition contractFields : JsVal -> JsVal :=
  pick
    [ ("historical_actual", each (only ["date"; "actual"]));
      ("forecast_data", each (only ["date"; "predicted"; "lower"; "upper"]));
      ("components",
        pick [ ("trend", each (only ["date"; "value"]));
               ("yearly", each (only ["date"; "value"]));
               ("extra_regressors",
                 eachEntry (each (only ["date"; "value"]))) ]);
      ("cv_metrics", only ["mape"; "mae"; "rmse"; "coverage"]) ].

End Contract.

(** ** The forecasting pipeline behind the endpoint

    The server side of [/api/predict_demand_v2] is not among the sources at
    hand; the three components below follow the specification's sections 3,
    4.1, 4.4 and 4.6. *)
Module Pipeline.

Module Raw.
(** Modelled from the spec: the raw configuration fields ConfigValidator
    receives (the request contract of section 6, and the horizon). *)
Record Config : Type := {
  extra_vars : list string;
  growth : string;
  yearly_seasonality : bool;
  seasonality_mode : string;
  changepoint_prior_scale : float;
  seasonality_prior_scale : float;
  interval_width : float;
  regressor_prior_scale : float;
  horizon_periods : nat
}.
End Raw.

Inductive Growth : Type := linear | logistic.

Inductive SeasonalityMode : Type := additive | multiplicative.

(** Modelled from the spec: ForecastConfig of section 3, the typed value
    ConfigValidator produces. *)
Record ForecastConfig : Type := {
  growth : Growth;
  extra_regressor_names : list string;
  yearly_seasonality : bool;
  seasonality_mode : SeasonalityMode;
  changepoint_prior_scale : float;
  seasonality_prior_scale : float;
  regressor_prior_scale : float;
  interval_width : float;
  horizon_periods : nat
}.

(** Modelled from the spec: the structured validation failure of section 4.1.
    It names the offending field and carries the rejected value; an unknown
    regressor name fails with [UnknownRegressor]. *)
Inductive ValidationFailure : Type :=
| NotEnumerated (field : string) (given : string)
| OutOfRange (field : string) (given : float)
| UnknownRegressor (name : string).

Definition parseGrowth (s : string) : option Growth :=
  if String.eqb s "linear" then Some linear
  else if String.eqb s "logistic" then Some logistic
  else None.

Definition parseSeasonalityMode (s : string) : option SeasonalityMode :=
  if String.eqb s "additive" then Some additive
  else if String.eqb s "multiplicative" then Some multiplicative
  else None.

(** Modelled from the spec: a prior scale must be finite and [> 0]
    (sections 3 and 4.1). *)
Definition validScale (v : float) : bool :=
  PrimFloat.is_finite v && PrimFloat.ltb 0%float v.

(** Modelled from the spec: [interval_width] must be finite and in the open
    interval (0,1) (sections 3 and 4.1). *)
Definition validWidth (v : float) : bool :=
  PrimFloat.is_finite v && PrimFloat.ltb 0%float v && PrimFloat.ltb v 1%float.

Definition isKnown (known : list string) (name : string) : bool :=
  existsb (String.eqb name) known.

(** Modelled from the spec: the first requested name that is not among the
    regressor names known to SeriesStore. *)
Definition firstUnknown (known names : list string) : option string :=
  find (fun name => negb (isKnown known name)) names.

Definition Checked (A : Type) : Type := (ValidationFailure + A)%type.

Definition andThen {A B : Type} (c : Checked A) (k : A -> Checked B)
  : Checked B :=
  match c with
  | inl failure => inl failure
  | inr a => k a
  end.

Definition require (holds : bool) (failure : ValidationFailure)
  : Checked unit :=
  if holds then inr tt else inl failure.

Definition enumerated {A : Type} (field given : string) (parsed : option A)
  : Checked A :=
  match parsed with
  | Some a => inr a
  | None => inl (NotEnumerated field given)
  end.

(** Modelled from the spec: ConfigValidator (section 4.1), over the regressor
    names known to SeriesStore. [growth] and [seasonality_mode] must be one of
    their enumerated values, the three prior scales finite and positive,
    [interval_width] finite and strictly between 0 and 1, every requested
    regressor known; the names are normalised to a duplicate-free set. *)
Definition validate (known : list string) (raw : Raw.Config)
  : Checked ForecastConfig :=
  andThen (enumerated "growth" (Raw.growth raw) (parseGrowth (Raw.growth raw)))
    (fun g =>
  andThen (enumerated "seasonality_mode" (Raw.seasonality_mode raw)
             (parseSeasonalityMode (Raw.seasonality_mode raw)))
    (fun m =>
  andThen (require (validScale (Raw.changepoint_prior_scale raw))
             (OutOfRange "changepoint_prior_scale"
                (Raw.changepoint_prior_scale raw)))
    (fun _ =>
  andThen (require (validScale (Raw.seasonality_prior_scale raw))
             (OutOfRange "seasonality_prior_scale"
                (Raw.seasonality_prior_scale raw)))
    (fun _ =>
  andThen (require (validScale (Raw.regressor_prior_scale raw))
             (OutOfRange "regressor_prior_scale"
                (Raw.regressor_prior_scale raw)))
    (fun _ =>
  andThen (require (validWidth (Raw.interval_width raw))
             (OutOfRange "interval_width" (Raw.interval_width raw)))
    (fun _ =>
  match firstUnknown known (Raw.extra_vars raw) with
  | Some name => inl (UnknownRegressor name)
  | None =>
      inr {| growth := g;
             extra_regressor_names := nodup string_dec (Raw.extra_vars raw);
             yearly_seasonality := Raw.yearly_seasonality raw;
             seasonality_mode := m;
             changepoint_prior_scale := Raw.changepoint_prior_scale raw;
             seasonality_prior_scale := Raw.seasonality_prior_scale raw;
             regressor_prior_scale := Raw.regressor_prior_scale raw;
             interval_width := Raw.interval_width raw;
             horizon_periods := Raw.horizon_periods raw |}
  end)))))).

(** A raw configuration with one field replaced. *)
Definition withWidth (w : float) (raw : Raw.Config) : Raw.Config := {|
  Raw.extra_vars := Raw.extra_vars raw;
  Raw.growth := Raw.growth raw;
  Raw.yearly_seasonality := Raw.yearly_seasonality raw;
  Raw.seasonality_mode := Raw.seasonality_mode raw;
  Raw.changepoint_prior_scale := Raw.changepoint_prior_scale raw;
  Raw.seasonality_prior_scale := Raw.seasonality_prior_scale raw;
  Raw.interval_width := w;
  Raw.regressor_prior_scale := Raw.regressor_prior_scale raw;
  Raw.horizon_periods := Raw.horizon_periods raw
|}.

Definition withChangepointScale (v : float) (raw : Raw.Config)
  : Raw.Config := {|
  Raw.extra_vars := Raw.extra_vars raw;
  Raw.growth := Raw.growth raw;
  Raw.yearly_seasonality := Raw.yearly_seasonality raw;
  Raw.seasonality_mode := Raw.seasonality_mode raw;
  Raw.changepoint_prior_scale := v;
  Raw.seasonality_prior_scale := Raw.seasonality_prior_scale raw;
  Raw.interval_width := Raw.interval_width raw;
  Raw.regressor_prior_scale := Raw.regressor_prior_scale raw;
  Raw.horizon_periods := Raw.horizon_periods raw
|}.

Definition withSeasonalityScale (v : float) (raw : Raw.Config)
  : Raw.Config := {|
  Raw.extra_vars := Raw.extra_vars raw;
  Raw.growth := Raw.growth raw;
  Raw.yearly_seasonality := Raw.yearly_seasonality raw;
  Raw.seasonality_mode := Raw.seasonality_mode raw;
  Raw.changepoint_prior_scale := Raw.changepoint_prior_scale raw;
  Raw.seasonality_prior_scale := v;
  Raw.interval_width := Raw.interval_width raw;
  Raw.regressor_prior_scale := Raw.regressor_prior_scale raw;
  Raw.horizon_periods := Raw.horizon_periods raw
|}.

Definition withRegressorScale (v : float) (raw : Raw.Config) : Raw.Config := {|
  Raw.extra_vars := Raw.extra_vars raw;
  Raw.growth := Raw.growth raw;
  Raw.yearly_seasonality := Raw.yearly_seasonality raw;
  Raw.seasonality_mode := Raw.seasonality_mode raw;
  Raw.changepoint_prior_scale := Raw.changepoint_prior_scale raw;
  Raw.seasonality_prior_scale := Raw.seasonality_prior_scale raw;
  Raw.interval_width := Raw.interval_width raw;
  Raw.regressor_prior_scale := v;
  Raw.horizon_periods := Raw.horizon_periods raw
|}.

(** A raw configuration asking for one more regressor. *)
Definition withExtraVar (name : string) (raw : Raw.Config) : Raw.Config := {|
  Raw.extra_vars := name :: Raw.extra_vars raw;
  Raw.growth := Raw.growth raw;
  Raw.yearly_seasonality := Raw.yearly_seasonality raw;
  Raw.seasonality_mode := Raw.seasonality_mode raw;
  Raw.changepoint_prior_scale := Raw.changepoint_prior_scale raw;
  Raw.seasonality_prior_scale := Raw.seasonality_prior_scale raw;
  Raw.interval_width := Raw.interval_width raw;
  Raw.regressor_prior_scale := Raw.regressor_prior_scale raw;
  Raw.horizon_periods := Raw.horizon_periods raw
|}.

(** The request the client builds from its initial state, as a raw
    configuration with a horizon of 12 periods. *)
Definition defaultRaw : Raw.Config := {|
  Raw.extra_vars := [];
  Raw.growth := "linear";
  Raw.yearly_seasonality := true;
  Raw.seasonality_mode := "additive";
  Raw.changepoint_prior_scale := 0.05%float;
  Raw.seasonality_prior_scale := 10.0%float;
  Raw.interval_width := 0.95%float;
  Raw.regressor_prior_scale := 0.05%float;
  Raw.horizon_periods := 12
|}.

(** Modelled from the spec: ComponentDecomposer (section 4.4) with the
    response layout of section 6. [series] is the fitted model's separable
    component evaluated over the date range, by component name. The trend is
    always there, [yearly] only if enabled, and [extra_regressors] holds one
    series per selected regressor and is left out when none is selected. *)
Definition decompose (cfg : ForecastConfig)
  (series : string -> list Contract.ValuePoint) : Contract.Components := {|
  Contract.trend := series "trend";
  Contract.yearly :=
    if yearly_seasonality cfg then Some (series "yearly") else None;
  Contract.extra_regressors :=
    match extra_regressor_names cfg with
    | [] => None
    | names => Some (map (fun name => (name, series name)) names)
    end
|}.

(** Calendar dates of the monthly series, as period numbers. *)
Definition Date : Type := Z.

(** Modelled from the spec: the generated future horizon, [horizon_periods]
    periods beyond the last historical date. *)
Definition futureHorizon (lastHistorical : Date) (horizon_periods : nat)
  : list Date :=
  map (fun k => (lastHistorical + Z.of_nat k)%Z) (seq 1 horizon_periods).

Fixpoint insertDate (d : Date) (l : list Date) : list Date :=
  match l with
  | [] => [d]
  | e :: rest =>
      match (d ?= e)%Z with
      | Lt => d :: l
      | Eq => l
      | Gt => e :: insertDate d rest
      end
  end.

(** Modelled from the spec: the union, deduplicated and sorted, of two date
    sequences (section 3, ForecastResult). *)
Definition unionDates (a b : list Date) : list Date :=
  fold_right insertDate [] (a ++ b).

Record Bounds : Type := { predicted : float; lower : float; upper : float }.

(** Modelled from the spec: ResultAssembler (section 4.6). The fitted model,
    [evaluate], is evaluated over the historical range and the future horizon,
    merged into one ascending, deduplicated sequence keyed by date. *)
Definition assembleForecast (evaluate : Date -> Bounds)
  (historical : list Date) (horizon_periods : nat) : list (Date * Bounds) :=
  map (fun d => (d, evaluate d))
      (unionDates historical
         (futureHorizon (last historical 0%Z) horizon_periods)).

End Pipeline.

(** ** The rendered screen

    What the [return] of [PredictDemand] puts on screen for a state, with the
    layer that draws the confidence band. *)
Module Screen.

(** [{v && body}] in JSX: the body when [v] is truthy; a falsy number is
    printed as text; any other falsy value leaves nothing. *)
Inductive Slot (A : Type) : Type :=
| Nothing
| StrayNumber (f : float)
| Shown (a : A).

Arguments Nothing {A}.
Arguments StrayNumber {A} f.
Arguments Shown {A} a.

Definition guarded {A : Type} (v : JsVal) (body : option A)
  : option (Slot A) :=
  if truthy v then a <- body ;; Some (Shown a)
  else Some match v with
            | JNum f => StrayNumber f
            | _ => Nothing
            end.

(** The four tab panels, with what their charts are given. *)
Inductive Panel : Type :=
| ForecastPanel (chartData : list Serie) (tickValues : list string)
| TrendPanel (chartData : list Serie) (tickValues : list string)
| YearlyPanel (chartData : list Serie) (tickValues : list string)
| ExtraRegressorsPanel (charts : list Serie)
    (tickValues : list (list string)).

(** The heading each panel opens with. *)
Definition heading (p : Panel) : string :=
  match p with
  | ForecastPanel _ _ => "Historical Fit and Forecast"
  | TrendPanel _ _ => "Trend Component"
  | YearlyPanel _ _ => "Yearly Seasonality Component"
  | ExtraRegressorsPanel _ _ => "Extra Regressors Components"
  end.

Definition slotMap {A B : Type} (f : A -> B) (s : Slot A) : Slot B :=
  match s with
  | Nothing => Nothing
  | StrayNumber n => StrayNumber n
  | Shown a => Shown (f a)
  end.

(** The panel under the tabs: [{tabValue === 0 && ...}],
    [{tabValue === 1 && result.components.trend && ...}] and so on; only the
    expression of the selected tab gets past its first test. *)
Definition panelSlot (result : JsVal) (tabValue : nat)
  : option (Slot Panel) :=
  match tabValue with
  | 0 =>
      chartData <- prepareForecastChartData result ;;
      tickValues <- getYearTicks chartData ;;
      Some (Shown (ForecastPanel chartData tickValues))
  | 1 =>
      components <- getProp result "components" ;;
      trend <- getProp components "trend" ;;
      guarded trend
        (chartData <- prepareComponentChartData result "trend" ;;
         tickValues <- getComponentYearTicks result "trend" ;;
         Some (TrendPanel chartData tickValues))
  | 2 =>
      components <- getProp result "components" ;;
      yearly <- getProp components "yearly" ;;
      guarded yearly
        (chartData <- prepareComponentChartData result "yearly" ;;
         tickValues <- getComponentYearTicks result "yearly" ;;
         Some (YearlyPanel chartData tickValues))
  | 3 =>
      components <- getProp result "components" ;;
      extra_regressors <- getProp components "extra_regressors" ;;
      guarded extra_regressors
        (charts <- extraRegressorCharts result ;;
         tickValues <- extraRegressorTicks result ;;
         Some (ExtraRegressorsPanel charts tickValues))
  | _ => Some Nothing
  end.

(** The [<Tab>] labels. *)
Definition tabLabels (result : JsVal) : option (list string) :=
  extra <- extraRegressorsTab result ;;
  Some (["Forecast"; "Trend"; "Yearly Seasonality"]
        ++ if extra then ["Extra Regressors"] else []).

Record ResultsArea : Type := {
  metrics : MetricTiles;
  tabs : list string;
  panel : Slot Panel
}.

Record Screen : Type := {
  checkboxes : list (string * bool);
  startDisabled : bool;
  alert : option string;
  results : Slot ResultsArea
}.

(** A scale of the chart library, as the layer receives it: the coordinate
    of a value, a number, or [undefined] for a value outside the scale's
    domain. *)
Definition Scale : Type := JsVal -> option float.

(** [checked={selectedExtraVars.includes(varName)}] *)
Definition checkboxChecked (st : State) (varName : string) : bool :=
  existsb (String.eqb varName) (selectedExtraVars st).

Section WithEngine.
Context {E : Engine}.

(** The body of [{result && (...)}]. *)
Definition resultsArea (st : State) : option ResultsArea :=
  tileRow <- metricTiles (result st) ;;
  labels <- tabLabels (result st) ;;
  shown <- panelSlot (result st) (tabValue st) ;;
  Some {| metrics := tileRow; tabs := labels; panel := shown |}.

(** One render of the component; [None] when it throws. The memoised
    [ciData] is computed in the component body, before the JSX. *)
Definition render (st : State) : option Screen :=
  _ <- ciData (result st) ;;
  area <- guarded (result st) (resultsArea st) ;;
  Some {| checkboxes :=
            map (fun varName => (varName, checkboxChecked st varName))
                AVAILABLE_EXTRA_VARS;
          startDisabled := loading st;
          alert := errorAlert st;
          results := area |}.

(** The text of a coordinate inside a template literal. *)
Definition coordinate (c : option float) : string :=
  match c with
  | Some f => numberToString f
  | None => "undefined"
  end.

(** [`${x} ${y}`] for a point put through the chart's scales. *)
Definition vertex (xScale yScale : Scale) (point : Point) : string :=
  (coordinate (xScale (x point)) ++ " " ++ coordinate (yScale (y point)))%string.

(** [` L ${x} ${y}`] *)
Definition lineTo (xScale yScale : Scale) (point : Point) : string :=
  (" L " ++ vertex xScale yScale point)%string.

(** [upper.forEach((point, index) => ...)] *)
Fixpoint drawUpper (xScale yScale : Scale) (index : nat)
  (upper : list Point) (path : string) : string :=
  match upper with
  | [] => path
  | point :: rest =>
      drawUpper xScale yScale (S index) rest
        (if Nat.eqb index 0
         then (path ++ "M " ++ vertex xScale yScale point)%string
         else (path ++ " L " ++ vertex xScale yScale point)%string)
  end.

(** [createAreaPath] of the confidence-interval layer. *)
Definition createAreaPath (xScale yScale : Scale)
  (upper lower : list Point) : string :=
  if Nat.eqb (List.length upper) 0 || Nat.eqb (List.length lower) 0 then ""
  else
    let path := drawUpper xScale yScale 0 upper "" in
    let reversedLower := rev lower in
    let path :=
      fold_left
        (fun path point =>
           (path ++ " L " ++ vertex xScale yScale point)%string)
        reversedLower path in
    (path ++ " Z")%string.

(** The [d] of the band's [<path>]: nothing is drawn while [ciData] is
    [null]. *)
Definition confidenceIntervalArea (xScale yScale : Scale)
  (ci : option CiData) : option string :=
  match ci with
  | None => None
  | Some band =>
      Some (createAreaPath xScale yScale (ci_upper band) (ci_lower band))
  end.

End WithEngine.

(** *** Vocabulary for the statements below *)

Definition nullish (v : JsVal) : bool :=
  match v with
  | JUndefined | JNull => true
  | _ => false
  end.

(** [v.k] as a value, for a [v] that is not nullish. *)
Definition field (v : JsVal) (k : string) : JsVal :=
  match getProp v k with
  | Some a => a
  | None => JUndefined
  end.

(** An array none of whose elements is [undefined] or [null]. *)
Definition isRecordArray (v : JsVal) : bool :=
  match v with
  | JArr items => forallb (fun item => negb (nullish item)) items
  | _ => false
  end.

Definition isNumber (v : JsVal) : bool :=
  match v with
  | JNum _ => true
  | _ => false
  end.

Definition isSome {A : Type} (o : option A) : bool :=
  match o with
  | Some _ => true
  | None => false
  end.

(** A value that has a text and a number: no object in it, at any depth of
    arrays, has a [toString] property of its own. *)
Fixpoint convertible (v : JsVal) : bool :=
  match v with
  | JArr items =>
      (fix all (l : list JsVal) : bool :=
         match l with
         | [] => true
         | item :: rest => convertible item && all rest
         end) items
  | JObj props => negb (isSome (assoc "toString" props))
  | _ => true
  end.

(** None of the three prior scales is 0 or NaN. *)
Definition scales_set (st : State) : Prop :=
  num_falsy (changepointPriorScale st) = false
  /\ num_falsy (seasonalityPriorScale st) = false
  /\ num_falsy (regressorPriorScale st) = false.

(** While a request is under way there is neither an error nor a result, and
    at no time are there both. *)
Definition error_or_result (st : State) : Prop :=
  (loading st = true -> error st = None /\ result st = JNull)
  /\ (error st = None \/ result st = JNull).

(** A result of the contract's shape with no points at all, for closed
    examples. *)
Definition emptyForecast : Contract.ForecastResult := {|
  Contract.historical_actual := [];
  Contract.forecast_data := [];
  Contract.components :=
    {| Contract.trend := [];
       Contract.yearly := None;
       Contract.extra_regressors := None |};
  Contract.cv_metrics :=
    {| Contract.mape := 0%float;
       Contract.mae := 0%float;
       Contract.rmse := 0%float;
       Contract.coverage := None |}
|}.

(** Each string is at most the next one, by code units. *)
Definition ascending (l : list string) : Prop :=
  Sorted (fun a b => String.leb a b = true) l.

(** The first date of a year: the first date whose part before the first
    dash is that year. *)
Definition firstOfYear (year : string) (allDates : list string)
  : option string :=
  find (fun d => String.eqb (beforeDash d) year) allDates.

(** The strings of a list, one after the other. *)
Definition joined (l : list string) : string :=
  fold_right String.append "" l.

Definition isString (v : JsVal) : bool :=
  match v with
  | JStr _ => true
  | _ => false
  end.

(** The string a value is, if it is one. *)
Definition stringOf (v : JsVal) : string :=
  match v with
  | JStr s => s
  | _ => ""
  end.

(** The [date]s of the elements of an array. *)
Definition dateStrings (v : JsVal) : list string :=
  match v with
  | JArr items => map (fun item => stringOf (field item "date")) items
  | _ => []
  end.

(** The dates of all points of all series, in order. *)
Definition seriesDates (chartData : list Serie) : list string :=
  flat_map (fun series => map (fun point => stringOf (x point)) (data series))
           chartData.

(** An array each of whose elements has a string under [date]. *)
Definition datesAreStrings (v : JsVal) : bool :=
  match v with
  | JArr items => forallb (fun item => isString (field item "date")) items
  | _ => false
  end.

(** The event clicks the checkbox of [varName]. *)
Definition clicks (varName : string) (e : Event) : bool :=
  match e with
  | ToggleCheckbox k =>
      match nth_error AVAILABLE_EXTRA_VARS k with
      | Some name => String.eqb name varName
      | None => false
      end
  | _ => false
  end.

Section WithEngine.
Context {E : Engine}.

(** A request settles only while one is under way, that is, while
    [loading] is set. *)
Fixpoint settlesWhileLoading (st : State) (events : list Event) : bool :=
  match events with
  | [] => true
  | e :: rest =>
      match e with
      | Settled _ => loading st
      | _ => true
      end
      && settlesWhileLoading (step st e) rest
  end.

End WithEngine.

End Screen.

(** * Properties *)

(** ** The request *)

Lemma json_strings (l : list string) :
  json_of (JArr (map JStr l)) = JArr (map JStr l).
Proof.
  cbn [json_of]. f_equal. rewrite map_map. reflexivity.
Qed.

Lemma requestBody_fields (st : State) :
  fields (requestBody st) =
    [ "extra_vars"; "growth"; "yearly_seasonality"; "weekly_seasonality";
      "daily_seasonality"; "seasonality_mode"; "changepoint_prior_scale";
      "seasonality_prior_scale"; "interval_width"; "regressor_prior_scale";
      "regressor_mode" ].
Proof. reflexivity. Qed.

Lemma requestBody_extra_vars (st : State) :
  getProp (requestBody st) "extra_vars"
  = Some (JArr (map JStr (selectedExtraVars st))).
Proof.
  unfold requestBody, requestObject.
  cbn -[json_num map]. rewrite map_map. reflexivity.
Qed.

(** C1, as stated, fails: the body of the very first request the component
    can send has a field [weekly_seasonality], so its fields are not exactly
    the eight of the request contract. *)
Lemma request_fields_not_only_contract :
  ~ (forall k : string,
        In k (fields (requestBody initial)) <->
        In k [ "extra_vars"; "growth"; "yearly_seasonality";
               "seasonality_mode"; "changepoint_prior_scale";
               "seasonality_prior_scale"; "interval_width";
               "regressor_prior_scale" ]).
Proof.
  intros H.
  destruct (H "weekly_seasonality") as [Hin _].
  assert (Hk : In "weekly_seasonality" (fields (requestBody initial))).
  { rewrite requestBody_fields. simpl. tauto. }
  apply Hin in Hk. simpl in Hk.
  repeat (destruct Hk as [Hk | Hk]; [discriminate Hk | ]).
  exact Hk.
Qed.

(** C1, amended: every request body has the eight fields of the request
    contract and, besides them, exactly three more: [weekly_seasonality] and
    [daily_seasonality], both [false], and [regressor_mode], which repeats
    the seasonality mode. [extra_vars] is the array of the selected names,
    [growth] and [seasonality_mode] are strings, [yearly_seasonality] is a
    boolean. *)
Theorem request_fields :
  forall st : State,
    fields (requestBody st) =
      [ "extra_vars"; "growth"; "yearly_seasonality"; "weekly_seasonality";
        "daily_seasonality"; "seasonality_mode"; "changepoint_prior_scale";
        "seasonality_prior_scale"; "interval_width"; "regressor_prior_scale";
        "regressor_mode" ]
    /\ getProp (requestBody st) "extra_vars"
       = Some (JArr (map JStr (selectedExtraVars st)))
    /\ getProp (requestBody st) "growth" = Some (JStr (growth st))
    /\ getProp (requestBody st) "yearly_seasonality"
       = Some (JBool (yearlySeasonality st))
    /\ getProp (requestBody st) "seasonality_mode"
       = Some (JStr (seasonalityMode st))
    /\ getProp (requestBody st) "changepoint_prior_scale"
       = Some (json_num (changepointPriorScale st))
    /\ getProp (requestBody st) "seasonality_prior_scale"
       = Some (json_num (seasonalityPriorScale st))
    /\ getProp (requestBody st) "regressor_prior_scale"
       = Some (json_num (regressorPriorScale st))
    /\ getProp (requestBody st) "weekly_seasonality" = Some (JBool false)
    /\ getProp (requestBody st) "daily_seasonality" = Some (JBool false)
    /\ getProp (requestBody st) "regressor_mode"
       = Some (JStr (seasonalityMode st)).
Proof.
  intros st. split; [apply requestBody_fields | ].
  unfold requestBody, requestObject.
  cbn -[json_num map]. rewrite map_map.
  repeat split; reflexivity.
Qed.

(** C9: the [interval_width] of every request body is the constant 0.95,
    whatever the component state is; so it is the same in any two requests. *)
Theorem interval_width_constant :
  forall st st' : State,
    getProp (requestBody st) "interval_width" = Some (JNum 0.95%float)
    /\ getProp (requestBody st) "interval_width"
       = getProp (requestBody st') "interval_width".
Proof.
  intros st st'. split; reflexivity.
Qed.

(** ** The selection of extra regressors *)

Lemma includes_In (v : string) (l : list string) :
  existsb (String.eqb v) l = true <-> In v l.
Proof.
  rewrite existsb_exists. split.
  - intros (w & Hw & Heq). apply String.eqb_eq in Heq. now subst.
  - intros Hin. exists v. split; [assumption | apply String.eqb_refl].
Qed.

Lemma toggle_NoDup (v : string) (prev : list string) :
  NoDup prev -> NoDup (toggle v prev).
Proof.
  intros Hnd. unfold toggle.
  destruct (existsb (String.eqb v) prev) eqn:Hin.
  - now apply NoDup_filter.
  - assert (Hout : ~ In v prev).
    { intros Hv. apply includes_In in Hv. congruence. }
    clear Hin. induction Hnd as [ | a l Ha Hl IH]; simpl.
    + constructor; [intros [] | constructor].
    + constructor.
      * rewrite in_app_iff. simpl. intros [Hal | [Hav | []]].
        -- contradiction.
        -- apply Hout. left. symmetry. exact Hav.
      * apply IH. intros Hv. apply Hout. right. exact Hv.
Qed.

Lemma toggle_incl (v : string) (prev names : list string) :
  In v names -> incl prev names -> incl (toggle v prev) names.
Proof.
  intros Hv Hprev w Hw. unfold toggle in Hw.
  destruct (existsb (String.eqb v) prev).
  - apply filter_In in Hw. apply Hprev. tauto.
  - apply in_app_iff in Hw. destruct Hw as [Hw | [Hw | []]].
    + now apply Hprev.
    + now subst.
Qed.

Lemma step_selection_ok {E : Engine} (st : State) (e : Event) :
  selection_ok st -> selection_ok (step st e).
Proof.
  intros [Hnd Hincl]. destruct e; try (split; assumption).
  - simpl. destruct (nth_error AVAILABLE_EXTRA_VARS k) as [varName | ] eqn:Hk.
    + apply nth_error_In in Hk. split; simpl.
      * now apply toggle_NoDup.
      * now apply toggle_incl.
    + split; assumption.
  - simpl. destruct (loading st); split; assumption.
  - simpl. unfold fetchPrediction_settle.
    destruct (tryBlock o); split; assumption.
Qed.

Lemma fold_step_selection_ok {E : Engine} (events : list Event) :
  forall st, selection_ok st -> selection_ok (fold_left step events st).
Proof.
  induction events as [ | e events IH]; intros st Hst; simpl.
  - exact Hst.
  - apply IH. now apply step_selection_ok.
Qed.

(** C10: whatever the user does from the initial render on, in any order
    (toggling the rendered checkboxes, editing parameters, starting
    predictions that settle in any way), the selection holds no name twice
    and only names of [AVAILABLE_EXTRA_VARS]; the [extra_vars] of the request
    built in that state is that selection. *)
Theorem selection_duplicate_free_and_available :
  forall (E : Engine) (events : list Event),
    NoDup (selectedExtraVars (run events))
    /\ incl (selectedExtraVars (run events)) AVAILABLE_EXTRA_VARS
    /\ getProp (requestBody (run events)) "extra_vars"
       = Some (JArr (map JStr (selectedExtraVars (run events)))).
Proof.
  intros E events.
  destruct (fold_step_selection_ok events initial) as [Hnd Hincl].
  - split; [constructor | intros w []].
  - repeat split; try assumption.
    apply requestBody_extra_vars.
Qed.

(** ** Settling a prediction request *)

Section Settling.
Context {E : Engine}.



Lemma tryBlock_failed (o : HttpOutcome) :
  succeeded o = false -> exists message, tryBlock o = inl message.
Proof.
  destruct o as [m | status [m | data]]; simpl; intros H; eauto.
  destruct (ok status); simpl in *.
  - destruct (getProp data "status") as [status_field | ]; eauto.
    rewrite H.
    destruct (getProp data "message"); eauto.
  - destruct (getProp data "message"); eauto.
Qed.

Lemma tryBlock_succeeded (o : HttpOutcome) :
  succeeded o = true ->
  exists status data payload,
    o = Responded status (inr data)
    /\ ok status = true
    /\ getProp data "status" = Some (JStr "success")
    /\ getProp data "data" = Some payload
    /\ tryBlock o = inr payload.
Proof.
  destruct o as [m | status [m | data]]; simpl; try discriminate.
  intros H. apply andb_true_iff in H. destruct H as [Hok Hs].
  destruct (getProp data "status") as [status_field | ] eqn:Hst;
    [ | discriminate].
  assert (Hdata : exists payload, getProp data "data" = Some payload).
  { destruct data; simpl in *; try discriminate; eauto.
    destruct (assoc "data" props); eauto. }
  destruct Hdata as [payload Hpayload].
  exists status, data, payload.
  rewrite Hok, Hs, Hpayload. simpl.
  repeat split; try reflexivity.
  destruct status_field; simpl in Hs; try discriminate.
  apply String.eqb_eq in Hs. now subst.
Qed.

End Settling.




(** ** The Coverage tile *)

Lemma percent_not_NA (s : string) : (s ++ "%")%string <> "N/A".
Proof.
  destruct s as [ | a [ | b [ | c [ | d s]]]]; simpl; intros H;
    discriminate H.
Qed.

Lemma getProp_is_field (v a : JsVal) (k : string) :
  getProp v k = Some a -> Screen.field v k = a.
Proof. intros H. unfold Screen.field. now rewrite H. Qed.

Lemma metricTiles_coverage {E : Engine} (result : JsVal) (row : MetricTiles) :
  metricTiles result = Some row ->
  coverageTile
    (Screen.field (Screen.field result "cv_metrics") "coverage")
  = Some (Coverage row).
Proof.
  unfold metricTiles.
  destruct (getProp result "cv_metrics") as [cv | ] eqn:Hcv;
    [ | discriminate].
  rewrite (getProp_is_field _ _ _ Hcv). cbn [bind].
  destruct (getProp cv "mape") as [mape | ]; [ | discriminate]. cbn [bind].
  destruct (js_mul mape (JNum 100%float)); [ | discriminate]. cbn [bind].
  destruct (getProp cv "mae") as [mae | ]; [ | discriminate]. cbn [bind].
  destruct (callToFixed mae 2); [ | discriminate]. cbn [bind].
  destruct (getProp cv "rmse") as [rmse | ]; [ | discriminate]. cbn [bind].
  destruct (callToFixed rmse 2); [ | discriminate]. cbn [bind].
  destruct (getProp cv "coverage") as [coverage | ] eqn:Hcov;
    [ | discriminate].
  rewrite (getProp_is_field _ _ _ Hcov). cbn [bind].
  destruct (coverageTile coverage); [ | discriminate]. cbn [bind].
  intros H. injection H as <-. reflexivity.
Qed.

Lemma coverageTile_number {E : Engine} (f : float) :
  coverageTile (JNum f)
  = Some (if num_falsy f then "N/A"
          else (toFixed (PrimFloat.mul f 100%float) 1 ++ "%")%string).
Proof.
  unfold coverageTile. simpl. destruct (num_falsy f); reflexivity.
Qed.

Lemma coverageTile_NA {E : Engine} (coverage : JsVal) (text : string) :
  coverageTile coverage = Some text ->
  (text = "N/A" <-> falsy coverage = true).
Proof.
  unfold coverageTile, falsy. destruct (truthy coverage); simpl.
  - destruct (js_mul coverage (JNum 100%float)); simpl; [ | discriminate].
    intros H. injection H as <-. split; [ | discriminate].
    intros H. now apply percent_not_NA in H.
  - intros H. injection H as <-. tauto.
Qed.

(** C8: in every row of metric tiles that is rendered, the Coverage tile is
    the expression of line 585 on [result.cv_metrics.coverage]: it reads
    "N/A" exactly when that coverage is falsy. A coverage of 0 therefore
    reads "N/A", as an absent coverage does in any other rendered row; a
    number other than 0 (and NaN) is shown as a percentage with one
    decimal. For the metrics of the contract's shape the row is always
    rendered, with that tile. *)
Theorem coverage_tile_NA_iff_falsy :
  forall (E : Engine) (result : JsVal) (row : MetricTiles),
    metricTiles result = Some row ->
    let coverage :=
      Screen.field (Screen.field result "cv_metrics") "coverage" in
    coverageTile coverage = Some (Coverage row)
    /\ (Coverage row = "N/A" <-> falsy coverage = true)
    /\ (forall f : float,
          coverage = JNum f ->
          Coverage row
          = if num_falsy f then "N/A"
            else (toFixed (PrimFloat.mul f 100%float) 1 ++ "%")%string)
    /\ (coverage = JNum 0%float ->
        Coverage row = "N/A"
        /\ forall (result' : JsVal) (row' : MetricTiles),
             metricTiles result' = Some row' ->
             Screen.field (Screen.field result' "cv_metrics") "coverage"
             = JUndefined ->
             Coverage row' = Coverage row)
    /\ (forall m : Contract.CVMetrics,
          option_map Coverage
            (metricTiles (JObj [("cv_metrics", Contract.jsonMetrics m)]))
          = Some match Contract.coverage m with
                 | Some c =>
                     if num_falsy c then "N/A"
                     else (toFixed (PrimFloat.mul c 100%float) 1
                           ++ "%")%string
                 | None => "N/A"
                 end).
Proof.
  intros E result row Hrow. cbv zeta.
  pose proof (metricTiles_coverage result row Hrow) as Htile.
  split; [exact Htile | ].
  split; [now apply coverageTile_NA | ].
  split; [ | split].
  - intros f Hf. rewrite Hf, coverageTile_number in Htile.
    now injection Htile as <-.
  - intros Hzero.
    assert (Hna : Coverage row = "N/A").
    { rewrite Hzero, coverageTile_number in Htile.
      now injection Htile as <-. }
    split; [exact Hna | ].
    intros result' row' Hrow' Habsent.
    pose proof (metricTiles_coverage result' row' Hrow') as Htile'.
    rewrite Habsent in Htile'. cbn in Htile'.
    injection Htile' as <-. now rewrite Hna.
  - intros [mp ma rm [c | ]]; cbn.
    + unfold coverageTile, js_mul. cbn.
      destruct (num_falsy c); reflexivity.
    + reflexivity.
Qed.

(** [coverage_tile_NA_iff_falsy] on a row whose coverage is 0. *)
Lemma coverage_tile_NA_iff_falsy_witness :
  exists row,
    metricTiles (E := plainEngine)
      (JObj [("cv_metrics",
              JObj [("mape", JNum 0.1%float); ("mae", JNum 1%float);
                    ("rmse", JNum 2%float); ("coverage", JNum 0%float)])])
    = Some row
    /\ Coverage row = "N/A".
Proof.
  eexists. split; [reflexivity | ].
  destruct (coverage_tile_NA_iff_falsy plainEngine
              (JObj [("cv_metrics",
                      JObj [("mape", JNum 0.1%float); ("mae", JNum 1%float);
                            ("rmse", JNum 2%float);
                            ("coverage", JNum 0%float)])])
              _ eq_refl)
    as (_ & _ & _ & Hzero & _).
  exact (proj1 (Hzero eq_refl)).
Defined.

(** ** Reading a contract-shaped result *)

Lemma mapM_map {A B C : Type} (f : B -> option C) (g : A -> B) (h : A -> C)
  (l : list A) :
  (forall a, f (g a) = Some (h a)) -> mapM f (map g l) = Some (map h l).
Proof.
  intros H. induction l as [ | a l IH]; simpl.
  - reflexivity.
  - now rewrite H, IH.
Qed.

Lemma mapM_ext {A B : Type} (f g : A -> option B) (l : list A) :
  (forall a, f a = g a) -> mapM f l = mapM g l.
Proof.
  intros H. induction l as [ | a l IH]; simpl.
  - reflexivity.
  - now rewrite H, IH.
Qed.

Lemma mapM_compose {A B C : Type} (f : B -> option C) (g : A -> B)
  (l : list A) :
  mapM f (map g l) = mapM (fun a => f (g a)) l.
Proof.
  induction l as [ | a l IH]; simpl.
  - reflexivity.
  - now rewrite IH.
Qed.

Section Reading.
Import Contract.

Lemma read_actual (p : ActualPoint) :
  readPoint "date" "actual" (jsonActual p)
  = Some {| x := JStr (actual_date p); y := JNum (actual p) |}.
Proof. reflexivity. Qed.

Lemma read_forecast (p : ForecastPoint) :
  readPoint "date" "predicted" (jsonForecast p)
  = Some {| x := JStr (forecast_date p); y := JNum (predicted p) |}
  /\ readPoint "date" "upper" (jsonForecast p)
     = Some {| x := JStr (forecast_date p); y := JNum (upper p) |}
  /\ readPoint "date" "lower" (jsonForecast p)
     = Some {| x := JStr (forecast_date p); y := JNum (lower p) |}.
Proof. repeat split. Qed.

Lemma read_series (l : list ValuePoint) :
  array_map (readPoint "date" "value") (jsonSeries l)
  = Some (map valuePoint l).
Proof.
  unfold jsonSeries. simpl. apply mapM_map. reflexivity.
Qed.

Lemma assoc_pick (spec : list (string * (JsVal -> JsVal)))
  (props : list (string * JsVal)) (k : string) :
  assoc k
    (flat_map (fun kv : string * JsVal =>
                 match assoc (fst kv) spec with
                 | Some f => [(fst kv, f (snd kv))]
                 | None => []
                 end) props)
  = match assoc k spec with
    | Some f => option_map f (assoc k props)
    | None => None
    end.
Proof.
  induction props as [ | [k' v] props IH]; simpl.
  - destruct (assoc k spec); reflexivity.
  - destruct (String.eqb k k') eqn:Hk.
    + apply String.eqb_eq in Hk. subst k'.
      destruct (assoc k spec) as [f | ] eqn:Hspec; simpl.
      * now rewrite String.eqb_refl.
      * exact IH.
    + destruct (assoc k' spec) as [f' | ]; simpl.
      * rewrite Hk. exact IH.
      * exact IH.
Qed.

Lemma getProp_pick (spec : list (string * (JsVal -> JsVal))) (v : JsVal)
  (k : string) (f : JsVal -> JsVal) :
  assoc k spec = Some f ->
  f JUndefined = JUndefined ->
  getProp (pick spec v) k = option_map f (getProp v k).
Proof.
  intros Hspec Hf. destruct v; cbn [pick getProp option_map];
    try reflexivity; try (now rewrite Hf).
  rewrite assoc_pick, Hspec.
  destruct (assoc k props); simpl; [reflexivity | now rewrite Hf].
Qed.

Lemma truthy_pick (spec : list (string * (JsVal -> JsVal))) (v : JsVal) :
  truthy (pick spec v) = truthy v.
Proof. destruct v; reflexivity. Qed.

Lemma truthy_each (f : JsVal -> JsVal) (v : JsVal) :
  truthy (each f v) = truthy v.
Proof. destruct v; reflexivity. Qed.

Lemma truthy_eachEntry (f : JsVal -> JsVal) (v : JsVal) :
  truthy (eachEntry f v) = truthy v.
Proof. destruct v; reflexivity. Qed.

Lemma array_map_each {B : Type} (g : JsVal -> option B) (f : JsVal -> JsVal)
  (v : JsVal) :
  (forall item, g (f item) = g item) ->
  array_map g (each f v) = array_map g v.
Proof.
  intros H. destruct v; simpl; try reflexivity.
  rewrite mapM_compose. now apply mapM_ext.
Qed.

Lemma readPoint_pick (spec : list (string * (JsVal -> JsVal)))
  (xk yk : string) (item : JsVal) :
  assoc xk spec = Some keep ->
  assoc yk spec = Some keep ->
  readPoint xk yk (pick spec item) = readPoint xk yk item.
Proof.
  intros Hx Hy. unfold readPoint.
  rewrite (getProp_pick spec item xk keep Hx eq_refl).
  rewrite (getProp_pick spec item yk keep Hy eq_refl).
  destruct (getProp item xk); destruct (getProp item yk); reflexivity.
Qed.

Lemma read_each_value (v : JsVal) :
  array_map (readPoint "date" "value") (each (only ["date"; "value"]) v)
  = array_map (readPoint "date" "value") v.
Proof.
  apply array_map_each. intros item. now apply readPoint_pick.
Qed.

Lemma prepareForecastChartData_contractFields (v : JsVal) :
  prepareForecastChartData (contractFields v) = prepareForecastChartData v.
Proof.
  unfold prepareForecastChartData, contractFields, falsy.
  rewrite truthy_pick. destruct (truthy v); [simpl | reflexivity].
  erewrite (getProp_pick _ v "forecast_data") by reflexivity.
  erewrite (getProp_pick _ v "historical_actual") by reflexivity.
  destruct (getProp v "forecast_data") as [fd | ]; [simpl | reflexivity].
  destruct (getProp v "historical_actual") as [ha | ]; [simpl | reflexivity].
  rewrite !array_map_each; [reflexivity | | ];
    intros item; now apply readPoint_pick.
Qed.

Lemma ciData_contractFields (v : JsVal) :
  ciData (contractFields v) = ciData v.
Proof.
  unfold ciData, contractFields, falsy.
  rewrite truthy_pick. destruct (truthy v); [simpl | reflexivity].
  erewrite (getProp_pick _ v "forecast_data") by reflexivity.
  destruct (getProp v "forecast_data") as [fd | ]; [simpl | reflexivity].
  rewrite !array_map_each; [reflexivity | | ];
    intros item; now apply readPoint_pick.
Qed.

Lemma prepareComponentChartData_contractFields (v : JsVal) (name : string) :
  name = "trend" \/ name = "yearly" ->
  prepareComponentChartData (contractFields v) name
  = prepareComponentChartData v name.
Proof.
  intros Hname.
  unfold prepareComponentChartData, contractFields, falsy.
  rewrite truthy_pick. destruct (truthy v); [simpl | reflexivity].
  erewrite (getProp_pick _ v "components") by reflexivity.
  destruct (getProp v "components") as [c | ]; [simpl | reflexivity].
  rewrite truthy_pick. destruct (truthy c); [simpl | reflexivity].
  assert (Hget : getProp
            (pick [("trend", each (only ["date"; "value"]));
                   ("yearly", each (only ["date"; "value"]));
                   ("extra_regressors",
                     eachEntry (each (only ["date"; "value"])))] c) name
          = option_map (each (only ["date"; "value"])) (getProp c name)).
  { destruct Hname as [-> | ->]; now apply getProp_pick. }
  rewrite Hget.
  destruct (getProp c name) as [d | ]; [simpl | reflexivity].
  rewrite truthy_each. destruct (truthy d); [simpl | reflexivity].
  now rewrite read_each_value.
Qed.

Lemma extraRegressorsTab_contractFields (v : JsVal) :
  extraRegressorsTab (contractFields v) = extraRegressorsTab v.
Proof.
  unfold extraRegressorsTab, contractFields.
  erewrite (getProp_pick _ v "components") by reflexivity.
  destruct (getProp v "components") as [c | ]; [simpl | reflexivity].
  erewrite (getProp_pick _ c "extra_regressors") by reflexivity.
  destruct (getProp c "extra_regressors") as [er | ]; [simpl | reflexivity].
  now rewrite truthy_eachEntry.
Qed.

Lemma indexed_map {A B : Type} (f : A -> B) (l : list A) :
  forall i, indexed i (map f l)
            = map (fun kv => (fst kv, f (snd kv))) (indexed i l).
Proof.
  induction l as [ | a l IH]; intros i; simpl.
  - reflexivity.
  - now rewrite IH.
Qed.

Lemma each_only_string (names : list string) (s : string) :
  map (each (only names)) (chars s) = chars s.
Proof.
  induction s as [ | c s IH]; simpl.
  - reflexivity.
  - now rewrite IH.
Qed.

Lemma extraRegressorCharts_contractFields (v : JsVal) :
  extraRegressorCharts (contractFields v) = extraRegressorCharts v.
Proof.
  unfold extraRegressorCharts, contractFields.
  erewrite (getProp_pick _ v "components") by reflexivity.
  destruct (getProp v "components") as [c | ]; [simpl | reflexivity].
  erewrite (getProp_pick _ c "extra_regressors") by reflexivity.
  destruct (getProp c "extra_regressors") as [er | ]; [simpl | reflexivity].
  rewrite truthy_eachEntry. destruct (truthy er); [ | reflexivity].
  assert (Hentries :
    objectEntries (eachEntry (each (only ["date"; "value"])) er)
    = option_map
        (map (fun kv : string * JsVal =>
                (fst kv, each (only ["date"; "value"]) (snd kv))))
        (objectEntries er)).
  { destruct er; cbn [objectEntries eachEntry option_map]; try reflexivity.
    - now rewrite <- indexed_map, each_only_string.
    - now rewrite indexed_map. }
  rewrite Hentries.
  destruct (objectEntries er) as [entries | ]; [simpl | reflexivity].
  rewrite mapM_compose. apply mapM_ext. intros [name d]. simpl.
  now rewrite read_each_value.
Qed.

Lemma read_each_date (v : JsVal) :
  array_map (fun item => getProp item "date") (each (only ["date"; "value"]) v)
  = array_map (fun item => getProp item "date") v.
Proof.
  apply array_map_each. intros item. unfold only.
  erewrite (getProp_pick _ item "date") by reflexivity.
  destruct (getProp item "date"); reflexivity.
Qed.

Lemma getComponentYearTicks_contractFields (v : JsVal) (name : string) :
  name = "trend" \/ name = "yearly" ->
  getComponentYearTicks (contractFields v) name = getComponentYearTicks v name.
Proof.
  intros Hname.
  unfold getComponentYearTicks, contractFields, falsy.
  rewrite truthy_pick. destruct (truthy v); [simpl | reflexivity].
  erewrite (getProp_pick _ v "components") by reflexivity.
  destruct (getProp v "components") as [c | ]; [simpl | reflexivity].
  rewrite truthy_pick. destruct (truthy c); [simpl | reflexivity].
  assert (Hget : getProp
            (pick [("trend", each (only ["date"; "value"]));
                   ("yearly", each (only ["date"; "value"]));
                   ("extra_regressors",
                     eachEntry (each (only ["date"; "value"])))] c) name
          = option_map (each (only ["date"; "value"])) (getProp c name)).
  { destruct Hname as [-> | ->]; now apply getProp_pick. }
  rewrite Hget.
  destruct (getProp c name) as [d | ]; [simpl | reflexivity].
  rewrite truthy_each. destruct (truthy d); [simpl | reflexivity].
  now rewrite read_each_date.
Qed.

Lemma extraRegressorTicks_contractFields (v : JsVal) :
  extraRegressorTicks (contractFields v) = extraRegressorTicks v.
Proof.
  unfold extraRegressorTicks, contractFields.
  erewrite (getProp_pick _ v "components") by reflexivity.
  destruct (getProp v "components") as [c | ]; [simpl | reflexivity].
  erewrite (getProp_pick _ c "extra_regressors") by reflexivity.
  destruct (getProp c "extra_regressors") as [er | ]; [simpl | reflexivity].
  rewrite truthy_eachEntry. destruct (truthy er); [ | reflexivity].
  assert (Hentries :
    objectEntries (eachEntry (each (only ["date"; "value"])) er)
    = option_map
        (map (fun kv : string * JsVal =>
                (fst kv, each (only ["date"; "value"]) (snd kv))))
        (objectEntries er)).
  { destruct er; cbn [objectEntries eachEntry option_map]; try reflexivity.
    - now rewrite <- indexed_map, each_only_string.
    - now rewrite indexed_map. }
  rewrite Hentries.
  destruct (objectEntries er) as [entries | ]; [simpl | reflexivity].
  rewrite mapM_compose. apply mapM_ext. intros [name d]. simpl.
  now rewrite read_each_date.
Qed.

Lemma yearTicks_strings (l : list string) :
  yearTicks (map JStr l) = Some (yearTicksOf l).
Proof.
  unfold yearTicks.
  rewrite (mapM_map asString JStr (fun s => s) l (fun s => eq_refl)).
  simpl. now rewrite map_id.
Qed.

Lemma read_series_dates (l : list ValuePoint) :
  array_map (fun item => getProp item "date") (jsonSeries l)
  = Some (map JStr (map date l)).
Proof.
  unfold jsonSeries. simpl. rewrite map_map. apply mapM_map. reflexivity.
Qed.

Lemma metricTiles_contractFields {E : Engine} (v : JsVal) :
  metricTiles (contractFields v) = metricTiles v.
Proof.
  unfold metricTiles, contractFields.
  erewrite (getProp_pick _ v "cv_metrics") by reflexivity.
  destruct (getProp v "cv_metrics") as [m | ]; [simpl | reflexivity].
  unfold only.
  erewrite (getProp_pick _ m "mape") by reflexivity.
  erewrite (getProp_pick _ m "mae") by reflexivity.
  erewrite (getProp_pick _ m "rmse") by reflexivity.
  erewrite (getProp_pick _ m "coverage") by reflexivity.
  destruct (getProp m "mape"); [simpl | reflexivity].
  destruct (getProp m "mae"); [simpl | reflexivity].
  destruct (getProp m "rmse"); [simpl | reflexivity].
  destruct (getProp m "coverage"); reflexivity.
Qed.

End Reading.

(** C2: what the component takes from a success response is decoded through
    the field names of the response contract. The [data] of a success
    response is stored as the result; for every [ForecastResult] in its JSON
    form the charts, the confidence band, the tab, the regressor charts and
    the metric tiles come out as the values under [date]/[actual],
    [date]/[predicted]/[lower]/[upper], [trend], [yearly],
    [extra_regressors] ([date]/[value] each) and
    [mape]/[mae]/[rmse]/[coverage]; and for any value whatever, dropping
    every field outside those names changes nothing of what is taken. *)
Theorem frontend_binds_contract_fields :
  forall (E : Engine) (st : State) (r : Contract.ForecastResult) (v : JsVal),
    result (fetchPrediction st (Responded 200 (inr (Contract.successBody r))))
    = Contract.jsonResult r
    /\ bindings (Contract.jsonResult r)
       = {| forecastChart :=
              Some [ {| id := "Actual";
                        data :=
                          map (fun p =>
                                 {| x := JStr (Contract.actual_date p);
                                    y := JNum (Contract.actual p) |})
                              (Contract.historical_actual r);
                        color := blueAccent500 |};
                     {| id := "Predicted";
                        data :=
                          map (fun p =>
                                 {| x := JStr (Contract.forecast_date p);
                                    y := JNum (Contract.predicted p) |})
                              (Contract.forecast_data r);
                        color := greenAccent500 |} ];
            forecastTicks :=
              Some (yearTicksOf
                      (map Contract.actual_date (Contract.historical_actual r)
                       ++ map Contract.forecast_date
                            (Contract.forecast_data r)));
            confidenceBand :=
              Some (Some
                {| ci_upper :=
                     map (fun p =>
                            {| x := JStr (Contract.forecast_date p);
                               y := JNum (Contract.upper p) |})
                         (Contract.forecast_data r);
                   ci_lower :=
                     map (fun p =>
                            {| x := JStr (Contract.forecast_date p);
                               y := JNum (Contract.lower p) |})
                         (Contract.forecast_data r) |});
            trendChart :=
              Some [ {| id := "trend";
                        data :=
                          map Contract.valuePoint
                            (Contract.trend (Contract.components r));
                        color := blueAccent500 |} ];
            trendTicks :=
              Some (yearTicksOf
                      (map Contract.date
                         (Contract.trend (Contract.components r))));
            yearlyChart :=
              Some match Contract.yearly (Contract.components r) with
                   | Some l =>
                       [ {| id := "yearly";
                            data := map Contract.valuePoint l;
                            color := blueAccent500 |} ]
                   | None => []
                   end;
            yearlyTicks :=
              Some match Contract.yearly (Contract.components r) with
                   | Some l => yearTicksOf (map Contract.date l)
                   | None => []
                   end;
            extraTab :=
              Some match Contract.extra_regressors (Contract.components r) with
                   | Some _ => true
                   | None => false
                   end;
            extraCharts :=
              Some match Contract.extra_regressors (Contract.components r) with
                   | Some l =>
                       map (fun e =>
                              {| id := fst e;
                                 data := map Contract.valuePoint (snd e);
                                 color := blueAccent500 |}) l
                   | None => []
                   end;
            extraTicks :=
              Some match Contract.extra_regressors (Contract.components r) with
                   | Some l =>
                       map (fun e => yearTicksOf (map Contract.date (snd e))) l
                   | None => []
                   end;
            tiles :=
              Some {| MAPE :=
                        (toFixed
                           (PrimFloat.mul
                              (Contract.mape (Contract.cv_metrics r))
                              100%float) 2 ++ "%")%string;
                      MAE := toFixed (Contract.mae (Contract.cv_metrics r)) 2;
                      RMSE := toFixed (Contract.rmse (Contract.cv_metrics r)) 2;
                      Coverage :=
                        match Contract.coverage (Contract.cv_metrics r) with
                        | Some c =>
                            if num_falsy c then "N/A"
                            else (toFixed (PrimFloat.mul c 100%float) 1
                                  ++ "%")%string
                        | None => "N/A"
                        end |} |}
    /\ bindings (Contract.contractFields v) = bindings v.
Proof.
  intros E st r v. split; [reflexivity | split].
  - destruct r as [ha fd [tr ye er] [mp ma rm cov]].
    unfold bindings. f_equal.
    + unfold prepareForecastChartData. cbn -[mapM].
      rewrite (mapM_map _ _ _ ha read_actual).
      rewrite (mapM_map _ _ _ fd (fun p => proj1 (read_forecast p))).
      reflexivity.
    + unfold prepareForecastChartData. cbn -[mapM].
      rewrite (mapM_map _ _ _ ha read_actual).
      rewrite (mapM_map _ _ _ fd (fun p => proj1 (read_forecast p))).
      cbn [bind]. unfold getYearTicks. cbn [flat_map data].
      rewrite app_nil_r, !map_map. cbn [x].
      rewrite <- (map_map Contract.actual_date JStr).
      rewrite <- (map_map Contract.forecast_date JStr).
      rewrite <- map_app. apply yearTicks_strings.
    + unfold ciData. cbn -[mapM].
      rewrite (mapM_map _ _ _ fd
                 (fun p => proj1 (proj2 (read_forecast p)))).
      rewrite (mapM_map _ _ _ fd
                 (fun p => proj2 (proj2 (read_forecast p)))).
      reflexivity.
    + unfold prepareComponentChartData. cbn -[array_map Contract.jsonSeries].
      now rewrite read_series.
    + unfold getComponentYearTicks.
      cbn -[array_map Contract.jsonSeries yearTicks yearTicksOf].
      rewrite read_series_dates. cbn -[yearTicks yearTicksOf].
      apply yearTicks_strings.
    + unfold prepareComponentChartData.
      destruct ye as [l | ]; destruct er as [l' | ];
        cbn -[array_map Contract.jsonSeries]; try reflexivity;
        now rewrite read_series.
    + unfold getComponentYearTicks.
      destruct ye as [l | ]; destruct er as [l' | ];
        cbn -[array_map Contract.jsonSeries yearTicks yearTicksOf];
        try reflexivity;
        rewrite read_series_dates; cbn -[yearTicks yearTicksOf];
        apply yearTicks_strings.
    + destruct ye; destruct er; reflexivity.
    + unfold extraRegressorCharts.
      destruct er as [l | ]; [ | destruct ye; reflexivity].
      assert (Hcharts :
        mapM (fun entry : string * JsVal =>
                points <- array_map (readPoint "date" "value") (snd entry) ;;
                Some {| id := fst entry; data := points;
                        color := blueAccent500 |})
             (map (fun e => (fst e, Contract.jsonSeries (snd e))) l)
        = Some (map (fun e =>
                       {| id := fst e;
                          data := map Contract.valuePoint (snd e);
                          color := blueAccent500 |}) l)).
      { apply mapM_map. intros [name pts].
        cbn -[array_map Contract.jsonSeries]. now rewrite read_series. }
      destruct ye; cbn -[mapM array_map Contract.jsonSeries];
        exact Hcharts.
    + unfold extraRegressorTicks.
      destruct er as [l | ]; [ | destruct ye; reflexivity].
      assert (Hticks :
        mapM (fun entry : string * JsVal =>
                allDates <- array_map (fun item => getProp item "date")
                              (snd entry) ;;
                yearTicks allDates)
             (map (fun e => (fst e, Contract.jsonSeries (snd e))) l)
        = Some (map (fun e => yearTicksOf (map Contract.date (snd e))) l)).
      { apply mapM_map. intros [name pts].
        cbn -[array_map Contract.jsonSeries yearTicks yearTicksOf].
        rewrite read_series_dates. cbn -[yearTicks yearTicksOf].
        apply yearTicks_strings. }
      destruct ye;
        cbn -[mapM array_map Contract.jsonSeries yearTicks yearTicksOf];
        exact Hticks.
    + unfold metricTiles. destruct cov as [c | ]; cbn.
      * unfold coverageTile, js_mul. simpl.
        destruct (num_falsy c); reflexivity.
      * reflexivity.
  - unfold bindings. f_equal.
    + apply prepareForecastChartData_contractFields.
    + now rewrite prepareForecastChartData_contractFields.
    + apply ciData_contractFields.
    + apply prepareComponentChartData_contractFields. now left.
    + apply getComponentYearTicks_contractFields. now left.
    + apply prepareComponentChartData_contractFields. now right.
    + apply getComponentYearTicks_contractFields. now right.
    + apply extraRegressorsTab_contractFields.
    + apply extraRegressorCharts_contractFields.
    + apply extraRegressorTicks_contractFields.
    + apply metricTiles_contractFields.
Qed.

(** ** The configuration validator *)

Section Validator.
Import Pipeline.

Lemma negative_not_positive (v : float) :
  PrimFloat.ltb v 0%float = true -> PrimFloat.ltb 0%float v = false.
Proof.
  rewrite !ltb_spec.
  replace (Prim2SF 0%float) with (S754_zero false) by reflexivity.
  unfold SFltb.
  destruct (Prim2SF v) as [s | s | | s m e]; simpl;
    try destruct s; congruence.
Qed.

Lemma negative_scale_invalid (v : float) :
  PrimFloat.ltb v 0%float = true -> validScale v = false.
Proof.
  intros H. unfold validScale.
  rewrite (negative_not_positive v H). apply andb_false_r.
Qed.

Lemma firstUnknown_none (known names : list string) :
  firstUnknown known names = None ->
  forall name, In name names -> In name known.
Proof.
  intros Hnone name Hin. unfold firstUnknown in Hnone.
  pose proof (find_none _ _ Hnone name Hin) as Hk. simpl in Hk.
  apply negb_false_iff in Hk. unfold isKnown in Hk.
  now apply includes_In.
Qed.

Lemma isKnown_false (known : list string) (name : string) :
  ~ In name known -> isKnown known name = false.
Proof.
  intros Hout. unfold isKnown.
  destruct (existsb (String.eqb name) known) eqn:Hk; [ | reflexivity].
  apply includes_In in Hk. contradiction.
Qed.

(** What an accepted raw configuration has passed. *)
Lemma validate_accepts (known : list string) (raw : Raw.Config)
  (cfg : ForecastConfig) :
  validate known raw = inr cfg ->
  (exists g, parseGrowth (Raw.growth raw) = Some g)
  /\ (exists m, parseSeasonalityMode (Raw.seasonality_mode raw) = Some m)
  /\ validScale (Raw.changepoint_prior_scale raw) = true
  /\ validScale (Raw.seasonality_prior_scale raw) = true
  /\ validScale (Raw.regressor_prior_scale raw) = true
  /\ validWidth (Raw.interval_width raw) = true
  /\ firstUnknown known (Raw.extra_vars raw) = None
  /\ extra_regressor_names cfg = nodup string_dec (Raw.extra_vars raw)
  /\ yearly_seasonality cfg = Raw.yearly_seasonality raw.
Proof.
  unfold validate.
  destruct (parseGrowth (Raw.growth raw)) as [g | ]; simpl;
    [ | discriminate].
  destruct (parseSeasonalityMode (Raw.seasonality_mode raw)) as [m | ]; simpl;
    [ | discriminate].
  destruct (validScale (Raw.changepoint_prior_scale raw)); simpl;
    [ | discriminate].
  destruct (validScale (Raw.seasonality_prior_scale raw)); simpl;
    [ | discriminate].
  destruct (validScale (Raw.regressor_prior_scale raw)); simpl;
    [ | discriminate].
  destruct (validWidth (Raw.interval_width raw)); simpl;
    [ | discriminate].
  destruct (firstUnknown known (Raw.extra_vars raw)); [discriminate | ].
  intros H. injection H as <-. simpl.
  repeat split; eauto.
Qed.

End Validator.

(** C7: the validator accepts no raw configuration whose [interval_width] is
    0 or 1, that has a negative prior scale, or that asks for a regressor
    SeriesStore does not know. Replacing one field of an accepted
    configuration by such a value yields, in turn, an out-of-range failure
    naming [interval_width] with the value 0, the same with the value 1, an
    out-of-range failure naming the prior scale, and [UnknownRegressor] with
    the name; these failures are pairwise different. *)
Theorem validator_rejects :
  forall (known : list string) (raw : Pipeline.Raw.Config)
         (v : float) (name : string),
    PrimFloat.ltb v 0%float = true ->
    ~ In name known ->
    (Pipeline.Raw.interval_width raw = 0%float
     \/ Pipeline.Raw.interval_width raw = 1%float
     \/ Pipeline.Raw.changepoint_prior_scale raw = v
     \/ Pipeline.Raw.seasonality_prior_scale raw = v
     \/ Pipeline.Raw.regressor_prior_scale raw = v
     \/ In name (Pipeline.Raw.extra_vars raw) ->
     exists failure, Pipeline.validate known raw = inl failure)
    /\ (forall cfg,
          Pipeline.validate known raw = inr cfg ->
          Pipeline.validate known (Pipeline.withWidth 0%float raw)
          = inl (Pipeline.OutOfRange "interval_width" 0%float)
          /\ Pipeline.validate known (Pipeline.withWidth 1%float raw)
             = inl (Pipeline.OutOfRange "interval_width" 1%float)
          /\ Pipeline.validate known (Pipeline.withChangepointScale v raw)
             = inl (Pipeline.OutOfRange "changepoint_prior_scale" v)
          /\ Pipeline.validate known (Pipeline.withSeasonalityScale v raw)
             = inl (Pipeline.OutOfRange "seasonality_prior_scale" v)
          /\ Pipeline.validate known (Pipeline.withRegressorScale v raw)
             = inl (Pipeline.OutOfRange "regressor_prior_scale" v)
          /\ Pipeline.validate known (Pipeline.withExtraVar name raw)
             = inl (Pipeline.UnknownRegressor name))
    /\ NoDup [ Pipeline.OutOfRange "interval_width" 0%float;
               Pipeline.OutOfRange "interval_width" 1%float;
               Pipeline.OutOfRange "changepoint_prior_scale" v;
               Pipeline.OutOfRange "seasonality_prior_scale" v;
               Pipeline.OutOfRange "regressor_prior_scale" v;
               Pipeline.UnknownRegressor name ].
Proof.
  intros known raw v name Hneg Hunknown.
  pose proof (negative_scale_invalid v Hneg) as Hscale.
  split; [ | split].
  - intros Hbad.
    destruct (Pipeline.validate known raw) as [failure | cfg] eqn:Hv;
      [eauto | exfalso].
    destruct (validate_accepts known raw cfg Hv)
      as (_ & _ & Hc & Hs & Hr & Hw & Hnames & _).
    destruct Hbad as [H | [H | [H | [H | [H | H]]]]].
    + rewrite H in Hw. discriminate Hw.
    + rewrite H in Hw. discriminate Hw.
    + rewrite H in Hc. congruence.
    + rewrite H in Hs. congruence.
    + rewrite H in Hr. congruence.
    + apply Hunknown. now apply (firstUnknown_none known _ Hnames).
  - intros cfg Hv.
    destruct (validate_accepts known raw cfg Hv)
      as ([g Hg] & [m Hm] & Hc & Hs & Hr & Hw & Hnames & _).
    unfold Pipeline.validate; simpl.
    rewrite Hg, Hm. simpl.
    rewrite Hc, Hs, Hr, Hw, Hscale. simpl.
    repeat split.
    unfold Pipeline.firstUnknown. simpl.
    now rewrite (isKnown_false known name Hunknown).
  - repeat constructor; simpl; intros H;
      repeat (destruct H as [H | H]; try discriminate H);
      try contradiction.
Qed.

(** [validator_rejects] at the client's initial request, validated against
    the six regressor names the client offers, with the negative scale -1
    and the unknown name "rainfall". *)
Lemma validator_rejects_witness :
  PrimFloat.ltb (-1)%float 0%float = true
  /\ ~ In "rainfall" AVAILABLE_EXTRA_VARS
  /\ Pipeline.validate AVAILABLE_EXTRA_VARS
       (Pipeline.withWidth 0%float Pipeline.defaultRaw)
     = inl (Pipeline.OutOfRange "interval_width" 0%float)
  /\ Pipeline.validate AVAILABLE_EXTRA_VARS
       (Pipeline.withWidth 1%float Pipeline.defaultRaw)
     = inl (Pipeline.OutOfRange "interval_width" 1%float)
  /\ Pipeline.validate AVAILABLE_EXTRA_VARS
       (Pipeline.withRegressorScale (-1)%float Pipeline.defaultRaw)
     = inl (Pipeline.OutOfRange "regressor_prior_scale" (-1)%float)
  /\ Pipeline.validate AVAILABLE_EXTRA_VARS
       (Pipeline.withExtraVar "rainfall" Pipeline.defaultRaw)
     = inl (Pipeline.UnknownRegressor "rainfall").
Proof.
  assert (Hneg : PrimFloat.ltb (-1)%float 0%float = true) by reflexivity.
  assert (Hunknown : ~ In "rainfall" AVAILABLE_EXTRA_VARS).
  { simpl. intros H.
    repeat (destruct H as [H | H]; [discriminate H | ]). exact H. }
  destruct (validator_rejects AVAILABLE_EXTRA_VARS Pipeline.defaultRaw
              (-1)%float "rainfall" Hneg Hunknown)
    as (_ & Hmutated & _).
  destruct (Pipeline.validate AVAILABLE_EXTRA_VARS Pipeline.defaultRaw)
    as [failure | cfg] eqn:Hv; [vm_compute in Hv; discriminate Hv | ].
  destruct (Hmutated cfg eq_refl) as (H0 & H1 & _ & _ & Hr & Hu).
  repeat split; assumption.
Defined.

(** ** The assembled forecast dates *)

Section Assembler.
Import Pipeline.

Lemma insertDate_In (d x : Date) (l : list Date) :
  In x (insertDate d l) <-> x = d \/ In x l.
Proof.
  induction l as [ | e l IH]; simpl.
  - intuition congruence.
  - destruct (Z.compare_spec d e) as [Heq | Hlt | Hgt]; simpl.
    + subst. intuition congruence.
    + intuition congruence.
    + rewrite IH. intuition congruence.
Qed.

Lemma insertDate_sorted (d : Date) (l : list Date) :
  StronglySorted Z.lt l -> StronglySorted Z.lt (insertDate d l).
Proof.
  intros Hs. induction Hs as [ | e l Hl IH He]; simpl.
  - repeat constructor.
  - destruct (Z.compare_spec d e) as [Heq | Hlt | Hgt].
    + now constructor.
    + constructor; [now constructor | ].
      constructor; [assumption | ].
      rewrite Forall_forall in He |- *. intros y Hy.
      specialize (He y Hy). lia.
    + constructor; [assumption | ].
      rewrite Forall_forall in He |- *. intros y Hy.
      apply insertDate_In in Hy. destruct Hy as [-> | Hy].
      * lia.
      * now apply He.
Qed.

Lemma unionDates_sorted (a b : list Date) :
  StronglySorted Z.lt (unionDates a b).
Proof.
  unfold unionDates. induction (a ++ b) as [ | d l IH]; simpl.
  - constructor.
  - now apply insertDate_sorted.
Qed.

Lemma unionDates_In (a b : list Date) (x : Date) :
  In x (unionDates a b) <-> In x a \/ In x b.
Proof.
  unfold unionDates. rewrite <- in_app_iff.
  induction (a ++ b) as [ | d l IH]; simpl.
  - tauto.
  - rewrite insertDate_In, IH. intuition congruence.
Qed.

Lemma ascending_NoDup (l : list Date) :
  StronglySorted Z.lt l -> NoDup l.
Proof.
  intros Hs. induction Hs as [ | e l Hl IH He]; constructor.
  - intros Hin. rewrite Forall_forall in He.
    specialize (He e Hin). lia.
  - assumption.
Qed.

Lemma assembleForecast_dates (evaluate : Date -> Bounds)
  (historical : list Date) (h : nat) :
  map fst (assembleForecast evaluate historical h)
  = unionDates historical (futureHorizon (last historical 0%Z) h).
Proof.
  unfold assembleForecast. rewrite map_map. simpl. apply map_id.
Qed.

End Assembler.

(** C6: whatever the fitted model, the history and the horizon, the dates of
    the assembled [forecast_data] are strictly ascending, hence free of
    duplicates; a date is among them exactly when it is a historical date or
    one of the generated future-horizon dates, and each such date occurs
    exactly once. *)
Theorem forecast_dates_ascending_union :
  forall (evaluate : Pipeline.Date -> Pipeline.Bounds)
         (historical : list Pipeline.Date) (horizon_periods : nat),
    StronglySorted Z.lt
      (map fst (Pipeline.assembleForecast evaluate historical horizon_periods))
    /\ NoDup
         (map fst
            (Pipeline.assembleForecast evaluate historical horizon_periods))
    /\ forall d : Pipeline.Date,
         (In d (map fst
                  (Pipeline.assembleForecast evaluate historical
                     horizon_periods))
          <-> In d historical
              \/ In d (Pipeline.futureHorizon (last historical 0%Z)
                         horizon_periods))
         /\ count_occ Z.eq_dec
              (map fst
                 (Pipeline.assembleForecast evaluate historical
                    horizon_periods)) d
            = if in_dec Z.eq_dec d
                   (historical
                    ++ Pipeline.futureHorizon (last historical 0%Z)
                         horizon_periods)
              then 1 else 0.
Proof.
  intros evaluate historical h.
  rewrite assembleForecast_dates.
  pose proof (unionDates_sorted historical
                (Pipeline.futureHorizon (last historical 0%Z) h)) as Hs.
  pose proof (ascending_NoDup _ Hs) as Hnd.
  split; [exact Hs | split; [exact Hnd | ]].
  intros d. split; [apply unionDates_In | ].
  destruct (in_dec Z.eq_dec d _) as [Hin | Hout].
  - apply NoDup_count_occ'; [exact Hnd | ].
    apply unionDates_In. now apply in_app_iff.
  - apply count_occ_not_In. intros Hd. apply Hout.
    apply in_app_iff. now apply unionDates_In.
Qed.

(** ** The Extra Regressors tab *)

Section ExtraRegressors.
Import Contract.

Lemma getProp_extra_regressors (c : Components) :
  getProp (jsonComponents c) "extra_regressors"
  = Some match extra_regressors c with
         | Some l => jsonRegressors l
         | None => JUndefined
         end.
Proof. destruct c as [t [y | ] [e | ]]; reflexivity. Qed.

Lemma extra_regressors_field (c : Components) :
  In "extra_regressors" (fields (jsonComponents c))
  <-> extra_regressors c <> None.
Proof.
  destruct c as [t [y | ] [e | ]]; simpl; split; intros H;
    try discriminate; try tauto;
    repeat (destruct H as [H | H]; try discriminate H); try contradiction.
Qed.

Lemma extraRegressorsTab_json (r : ForecastResult) :
  extraRegressorsTab (jsonResult r)
  = Some match extra_regressors (components r) with
         | Some _ => true
         | None => false
         end.
Proof.
  destruct r as [ha fd [t [y | ] [e | ]] m]; reflexivity.
Qed.

Lemma keys_regressors (series : string -> list ValuePoint)
  (names : list string) :
  keys (map (fun e : string * list ValuePoint => (fst e, jsonSeries (snd e)))
          (map (fun name => (name, series name)) names))
  = names.
Proof.
  unfold keys. rewrite !map_map. simpl. apply map_id.
Qed.

Lemma decompose_extra_regressors (cfg : Pipeline.ForecastConfig)
  (series : string -> list ValuePoint) :
  extra_regressors (Pipeline.decompose cfg series)
  = match Pipeline.extra_regressor_names cfg with
    | [] => None
    | names => Some (map (fun name => (name, series name)) names)
    end.
Proof. reflexivity. Qed.

End ExtraRegressors.

(** C4: for every accepted request and whatever the component series are,
    the [components] object has no [extra_regressors] key when no regressor
    is selected; when [R] is selected, [extra_regressors] is an object with
    exactly one entry named [R]; and it never has an entry for a name that is
    not selected. For every result of the contract's shape the Extra
    Regressors tab is rendered exactly when the [extra_regressors] key is
    present in [components]. *)
Theorem extra_regressors_entries_and_tab :
  forall (known : list string) (raw : Pipeline.Raw.Config)
         (cfg : Pipeline.ForecastConfig)
         (series : string -> list Contract.ValuePoint),
    Pipeline.validate known raw = inr cfg ->
    (Pipeline.Raw.extra_vars raw = [] ->
     ~ In "extra_regressors"
         (fields (Contract.jsonComponents (Pipeline.decompose cfg series))))
    /\ (forall R : string,
          In R (Pipeline.Raw.extra_vars raw) ->
          exists entries,
            getProp (Contract.jsonComponents (Pipeline.decompose cfg series))
              "extra_regressors"
            = Some (JObj entries)
            /\ count_occ string_dec (keys entries) R = 1)
    /\ (forall (R : string) (entries : list (string * JsVal)),
          ~ In R (Pipeline.Raw.extra_vars raw) ->
          getProp (Contract.jsonComponents (Pipeline.decompose cfg series))
            "extra_regressors"
          = Some (JObj entries) ->
          ~ In R (keys entries))
    /\ (forall r : Contract.ForecastResult,
          (extraRegressorsTab (Contract.jsonResult r) = Some true
           <-> In "extra_regressors"
                 (fields (Contract.jsonComponents (Contract.components r))))
          /\ (extraRegressorsTab (Contract.jsonResult r) = Some false
              <-> ~ In "extra_regressors"
                      (fields
                         (Contract.jsonComponents (Contract.components r))))).
Proof.
  intros known raw cfg series Hv.
  destruct (validate_accepts known raw cfg Hv)
    as (_ & _ & _ & _ & _ & _ & _ & Hnames & _).
  assert (Hget :
    getProp (Contract.jsonComponents (Pipeline.decompose cfg series))
      "extra_regressors"
    = Some match nodup string_dec (Pipeline.Raw.extra_vars raw) with
           | [] => JUndefined
           | names =>
               Contract.jsonRegressors
                 (map (fun name => (name, series name)) names)
           end).
  { rewrite getProp_extra_regressors, decompose_extra_regressors, Hnames.
    destruct (nodup string_dec (Pipeline.Raw.extra_vars raw)); reflexivity. }
  split; [ | split; [ | split]].
  - intros Hnone. rewrite extra_regressors_field, decompose_extra_regressors.
    rewrite Hnames, Hnone. simpl. congruence.
  - intros R HR. rewrite Hget.
    pose proof (proj2 (nodup_In string_dec _ R) HR) as HRn.
    destruct (nodup string_dec (Pipeline.Raw.extra_vars raw))
      as [ | n names] eqn:Hn; [contradiction | ].
    exists (map (fun e : string * list Contract.ValuePoint =>
                   (fst e, Contract.jsonSeries (snd e)))
              (map (fun name => (name, series name)) (n :: names))).
    split; [reflexivity | ].
    rewrite keys_regressors.
    apply NoDup_count_occ'; [ | exact HRn].
    rewrite <- Hn. apply NoDup_nodup.
  - intros R entries HR. rewrite Hget.
    destruct (nodup string_dec (Pipeline.Raw.extra_vars raw))
      as [ | n names] eqn:Hn; [discriminate | ].
    intros Hentries. unfold Contract.jsonRegressors in Hentries.
    injection Hentries as <-.
    change (~ In R
              (keys
                 (map (fun e : string * list Contract.ValuePoint =>
                         (fst e, Contract.jsonSeries (snd e)))
                    (map (fun name => (name, series name)) (n :: names))))).
    rewrite keys_regressors, <- Hn. intros HRn.
    apply HR. now apply (nodup_In string_dec).
  - intros r.
    rewrite extraRegressorsTab_json, extra_regressors_field.
    destruct (Contract.extra_regressors (Contract.components r));
      intuition congruence.
Qed.

(** [extra_regressors_entries_and_tab] at the client's initial request with
    [total_population] selected. *)
Lemma extra_regressors_entries_and_tab_witness :
  exists cfg,
    Pipeline.validate AVAILABLE_EXTRA_VARS
      (Pipeline.withExtraVar "total_population" Pipeline.defaultRaw)
    = inr cfg
    /\ exists entries,
         getProp
           (Contract.jsonComponents (Pipeline.decompose cfg (fun _ => [])))
           "extra_regressors"
         = Some (JObj entries)
         /\ count_occ string_dec (keys entries) "total_population" = 1.
Proof.
  destruct (Pipeline.validate AVAILABLE_EXTRA_VARS
              (Pipeline.withExtraVar "total_population" Pipeline.defaultRaw))
    as [failure | cfg] eqn:Hv; [vm_compute in Hv; discriminate Hv | ].
  exists cfg. split; [reflexivity | ].
  destruct (extra_regressors_entries_and_tab AVAILABLE_EXTRA_VARS
              (Pipeline.withExtraVar "total_population" Pipeline.defaultRaw)
              cfg (fun _ => []) Hv)
    as (_ & Hone & _).
  apply Hone. simpl. left. reflexivity.
Defined.

(** ** Worked examples *)

Example toggle_twice_removes :
  toggle "age_60_69" (toggle "total_population" (toggle "age_60_69" []))
  = ["total_population"].
Proof. reflexivity. Qed.

Example not_found_without_message :
  error (fetchPrediction (E := plainEngine) initial
           (Responded 404 (inr (JObj []))))
  = Some "HTTP error! status: 404".
Proof. reflexivity. Qed.

Example gateway_page_is_not_json :
  error (fetchPrediction (E := plainEngine) initial
           (Responded 502 (inl "Unexpected token < in JSON at position 0")))
  = Some "Unexpected token < in JSON at position 0".
Proof. reflexivity. Qed.

Example ok_without_success :
  errorAlert (fetchPrediction (E := plainEngine) initial
                (Responded 200 (inr (JObj [("status", JStr "error")]))))
  = Some "Prediction failed".
Proof. reflexivity. Qed.

Example year_ticks :
  yearTicksOf ["2020-01-01"; "2020-02-01"; "2021-03-01"; "2019-12-01"]
  = ["2019-12-01"; "2020-01-01"; "2021-03-01"].
Proof. reflexivity. Qed.

Example null_regressors_hide_the_tab :
  extraRegressorsTab
    (JObj [("components", JObj [("extra_regressors", JNull)])])
  = Some false.
Proof. reflexivity. Qed.

Example empty_regressors_show_the_tab :
  extraRegressorsTab
    (JObj [("components", JObj [("extra_regressors", JObj [])])])
  = Some true.
Proof. reflexivity. Qed.

Example stringify_drops_undefined :
  json_of (JObj [("a", JUndefined); ("b", JArr [JUndefined; JBool true])])
  = JObj [("b", JArr [JNull; JBool true])].
Proof. reflexivity. Qed.

Example union_of_overlapping_dates :
  Pipeline.unionDates [1; 2; 3]%Z (Pipeline.futureHorizon 3%Z 2 ++ [2]%Z)
  = [1; 2; 3; 4; 5]%Z.
Proof. reflexivity. Qed.

Example default_request_is_valid :
  exists cfg,
    Pipeline.validate AVAILABLE_EXTRA_VARS Pipeline.defaultRaw = inr cfg.
Proof. eexists. reflexivity. Qed.

(** * Further properties of the component *)

(** ** Checkboxes *)

Lemma member_filter_out (w v : string) (l : list string) :
  existsb (String.eqb w) (filter (fun a => negb (String.eqb a v)) l)
  = existsb (String.eqb w) l && negb (String.eqb w v).
Proof.
  induction l as [ | a l IH]; simpl.
  - reflexivity.
  - destruct (String.eqb_spec a v) as [-> | Hav]; simpl.
    + rewrite IH. destruct (String.eqb w v); simpl.
      * now rewrite andb_false_r.
      * reflexivity.
    + rewrite IH. destruct (String.eqb_spec w a) as [-> | Hwa]; simpl.
      * destruct (String.eqb_spec a v); [contradiction | reflexivity].
      * reflexivity.
Qed.

Lemma member_toggle (w v : string) (l : list string) :
  existsb (String.eqb w) (toggle v l)
  = xorb (existsb (String.eqb w) l) (String.eqb w v).
Proof.
  unfold toggle. destruct (existsb (String.eqb v) l) eqn:Hv.
  - rewrite member_filter_out.
    destruct (String.eqb_spec w v) as [-> | Hwv].
    + rewrite Hv. reflexivity.
    + now rewrite andb_true_r, xorb_false_r.
  - rewrite existsb_app. simpl. rewrite orb_false_r.
    destruct (String.eqb_spec w v) as [-> | Hwv].
    + rewrite Hv. reflexivity.
    + now rewrite orb_false_r, xorb_false_r.
Qed.

(** X1: [handleExtraVarChange] flips the checked state of the name it is
    given and leaves the checked state of every other name as it was,
    whatever the selection held before (duplicates included). *)
Theorem handleExtraVarChange_flips_one :
  forall (st : State) (varName other : string),
    Screen.checkboxChecked (handleExtraVarChange varName st) other
    = xorb (Screen.checkboxChecked st other) (String.eqb other varName).
Proof.
  intros st varName other. unfold Screen.checkboxChecked. simpl.
  apply member_toggle.
Qed.

Lemma step_checkbox {E : Engine} (st : State) (e : Event) (v : string) :
  Screen.checkboxChecked (step st e) v
  = xorb (Screen.checkboxChecked st v) (Screen.clicks v e).
Proof.
  unfold Screen.checkboxChecked.
  destruct e; simpl; try (now rewrite xorb_false_r).
  - destruct (nth_error AVAILABLE_EXTRA_VARS k) as [name | ]; simpl.
    + rewrite member_toggle. now rewrite (String.eqb_sym name v).
    + now rewrite xorb_false_r.
  - destruct (loading st); simpl; now rewrite xorb_false_r.
  - unfold fetchPrediction_settle.
    destruct (tryBlock o); simpl; now rewrite xorb_false_r.
Qed.

Lemma fold_step_checkbox {E : Engine} (events : list Event) (v : string) :
  forall st,
    Screen.checkboxChecked (fold_left step events st) v
    = xorb (Screen.checkboxChecked st v)
        (Nat.odd (List.length (filter (Screen.clicks v) events))).
Proof.
  induction events as [ | e events IH]; intros st; simpl.
  - now rewrite xorb_false_r.
  - rewrite IH, step_checkbox.
    destruct (Screen.clicks v e); simpl.
    + rewrite Nat.odd_succ, <- Nat.negb_odd.
      destruct (Screen.checkboxChecked st v);
        destruct (Nat.odd _); reflexivity.
    + now rewrite xorb_false_r.
Qed.

(** X2: after any sequence of events from the initial render, a checkbox is
    checked exactly when it has been clicked an odd number of times;
    nothing else the user or the network does changes it. *)
Theorem checkbox_checked_iff_odd_clicks :
  forall (E : Engine) (events : list Event) (varName : string),
    Screen.checkboxChecked (run events) varName
    = Nat.odd (List.length (filter (Screen.clicks varName) events)).
Proof.
  intros E events varName. unfold run.
  rewrite fold_step_checkbox. reflexivity.
Qed.

(** ** The numeric parameters *)

Lemma num_or_set (parsed fallback : float) :
  num_falsy fallback = false -> num_falsy (num_or parsed fallback) = false.
Proof.
  intros H. unfold num_or. destruct (num_falsy parsed) eqn:Hp; assumption.
Qed.

Lemma step_scales_set {E : Engine} (st : State) (e : Event) :
  Screen.scales_set st -> Screen.scales_set (step st e).
Proof.
  intros (Hc & Hs & Hr).
  destruct e; simpl; try (repeat split; assumption).
  - destruct (nth_error AVAILABLE_EXTRA_VARS k); repeat split; assumption.
  - repeat split; try assumption. now apply num_or_set.
  - repeat split; try assumption. now apply num_or_set.
  - repeat split; try assumption. now apply num_or_set.
  - destruct (loading st); repeat split; assumption.
  - unfold fetchPrediction_settle.
    destruct (tryBlock o); repeat split; assumption.
Qed.

(** X3: whatever is typed into the three prior-scale fields, in any order
    and mixed with any other events, none of the three scales in the state is
    ever 0 or NaN: in any state, an entry that parses to 0 or to NaN (an
    emptied field) puts the default back (0.05, 10 and 0.05), and any other
    entry is stored as parsed. *)
Theorem prior_scales_never_zero_or_nan :
  forall (E : Engine) (events : list Event) (st : State) (parsed : float),
    num_falsy (changepointPriorScale (run events)) = false
    /\ num_falsy (seasonalityPriorScale (run events)) = false
    /\ num_falsy (regressorPriorScale (run events)) = false
    /\ changepointPriorScale (step st (TypeChangepointPriorScale parsed))
       = (if PrimFloat.eqb parsed 0%float || PrimFloat.is_nan parsed
          then 0.05%float else parsed)
    /\ seasonalityPriorScale (step st (TypeSeasonalityPriorScale parsed))
       = (if PrimFloat.eqb parsed 0%float || PrimFloat.is_nan parsed
          then 10.0%float else parsed)
    /\ regressorPriorScale (step st (TypeRegressorPriorScale parsed))
       = (if PrimFloat.eqb parsed 0%float || PrimFloat.is_nan parsed
          then 0.05%float else parsed).
Proof.
  intros E events st parsed.
  assert (H : forall st0, Screen.scales_set st0 ->
                          Screen.scales_set (fold_left step events st0)).
  { clear st. induction events as [ | e events IH]; intros st0 Hst; simpl.
    - exact Hst.
    - apply IH. now apply step_scales_set. }
  destruct (H initial) as (Hc & Hs & Hr); [repeat split; reflexivity | ].
  repeat split; try assumption.
Qed.

(** ** Error and result *)

Lemma settle_error_or_result {E : Engine} (st : State) (o : HttpOutcome) :
  loading st = true ->
  Screen.error_or_result st ->
  Screen.error_or_result (fetchPrediction_settle o st).
Proof.
  intros Hl [Hloading _]. destruct (Hloading Hl) as [He Hr].
  unfold fetchPrediction_settle, Screen.error_or_result.
  destruct (tryBlock o) as [message | payload]; simpl.
  - split; [discriminate | now right].
  - split; [discriminate | now left].
Qed.

Lemma fold_error_or_result {E : Engine} (events : list Event) :
  forall st,
    Screen.settlesWhileLoading st events = true ->
    Screen.error_or_result st ->
    Screen.error_or_result (fold_left step events st).
Proof.
  induction events as [ | e events IH]; intros st Hadm Hst; simpl.
  - exact Hst.
  - simpl in Hadm. apply andb_true_iff in Hadm. destruct Hadm as [He Hrest].
    apply IH; [exact Hrest | ].
    destruct e; try exact Hst.
    + simpl. destruct (nth_error AVAILABLE_EXTRA_VARS k); exact Hst.
    + simpl. destruct (loading st) eqn:Hl; [exact Hst | ].
      split; simpl; [auto | now left].
    + simpl. now apply settle_error_or_result.
Qed.

(** X4: as long as a request settles only while it is under way (the start
    button is disabled while loading, so requests do not overlap), the state
    never holds an error together with a result, and holds neither while
    loading; so the error alert is never shown over a result. *)
Theorem never_error_with_result :
  forall (E : Engine) (events : list Event),
    Screen.settlesWhileLoading initial events = true ->
    (loading (run events) = true ->
     error (run events) = None /\ result (run events) = JNull)
    /\ (error (run events) = None \/ result (run events) = JNull)
    /\ (errorAlert (run events) <> None -> result (run events) = JNull).
Proof.
  intros E events Hadm.
  destruct (fold_error_or_result events initial Hadm) as [Hloading Hone].
  - split; [discriminate | now left].
  - fold (run events) in Hloading, Hone.
    split; [exact Hloading | split; [exact Hone | ]].
    intros Halert. destruct Hone as [He | Hr]; [ | exact Hr].
    unfold errorAlert in Halert. rewrite He in Halert. contradiction.
Qed.

(** [never_error_with_result] on a prediction that fails and a second one
    that succeeds. *)
Lemma never_error_with_result_witness :
  Screen.settlesWhileLoading (E := plainEngine) initial
    [ ClickStart;
      Settled (Responded 500 (inr (JObj [("message", JStr "boom")])));
      ToggleCheckbox 1;
      ClickStart;
      Settled (Responded 200
                 (inr (JObj [("status", JStr "success");
                             ("data", JObj [])]))) ]
  = true
  /\ (error
        (run (E := plainEngine)
           [ ClickStart;
             Settled (Responded 500 (inr (JObj [("message", JStr "boom")])));
             ToggleCheckbox 1;
             ClickStart;
             Settled (Responded 200
                        (inr (JObj [("status", JStr "success");
                                    ("data", JObj [])]))) ])
      = None
      \/ result
           (run (E := plainEngine)
              [ ClickStart;
                Settled
                  (Responded 500 (inr (JObj [("message", JStr "boom")])));
                ToggleCheckbox 1;
                ClickStart;
                Settled (Responded 200
                           (inr (JObj [("status", JStr "success");
                                       ("data", JObj [])]))) ])
         = JNull).
Proof.
  split; [reflexivity | ].
  apply (never_error_with_result plainEngine
           [ ClickStart;
             Settled (Responded 500 (inr (JObj [("message", JStr "boom")])));
             ToggleCheckbox 1;
             ClickStart;
             Settled (Responded 200
                        (inr (JObj [("status", JStr "success");
                                    ("data", JObj [])]))) ]).
  reflexivity.
Defined.

Lemma append_not_empty (a b : string) : a <> "" -> (a ++ b)%string <> "".
Proof. destruct a; [congruence | discriminate]. Qed.

Lemma tryBlock_object_failure {E : Engine} (status : nat)
  (props : list (string * JsVal)) :
  succeeded (Responded status (inr (JObj props))) = false ->
  tryBlock (Responded status (inr (JObj props)))
  = inl (errorMessage (Screen.field (JObj props) "message")
           (if ok status then "Prediction failed"
            else ("HTTP error! status: " ++ nat_to_string status)%string)).
Proof.
  unfold Screen.field. simpl. intros Hfail.
  destruct (ok status); simpl in *.
  - destruct (assoc "status" props) as [status_field | ]; simpl in *.
    + rewrite Hfail. destruct (assoc "message" props); reflexivity.
    + destruct (assoc "message" props); reflexivity.
  - destruct (assoc "message" props); reflexivity.
Qed.

(** X5: a response that is not a success and whose body is a JSON object
    with a string [message], or with none, always puts a non-empty alert on
    screen: the message when it is non-empty, a fallback text otherwise. *)
Theorem failure_with_object_body_shows_alert :
  forall (E : Engine) (st : State) (status : nat)
         (props : list (string * JsVal)),
    succeeded (Responded status (inr (JObj props))) = false ->
    (assoc "message" props = None
     \/ exists s, assoc "message" props = Some (JStr s)) ->
    exists text,
      errorAlert (fetchPrediction st (Responded status (inr (JObj props))))
      = Some text
      /\ text <> ""
      /\ (forall s,
            assoc "message" props = Some (JStr s) -> s <> "" -> text = s).
Proof.
  intros E st status props Hfail Hmsg.
  unfold fetchPrediction, fetchPrediction_settle, errorAlert.
  rewrite (tryBlock_object_failure status props Hfail).
  cbn [error setLoadingErrorResult].
  set (fallback := if ok status then "Prediction failed"
                   else ("HTTP error! status: " ++ nat_to_string status)%string).
  assert (Hfb : fallback <> "").
  { unfold fallback. destruct (ok status); [discriminate | ].
    apply append_not_empty. discriminate. }
  unfold Screen.field, errorMessage, js_or. cbn [getProp].
  destruct Hmsg as [Hnone | [s Hs]].
  - rewrite Hnone. cbn [truthy ToString].
    destruct (String.eqb_spec fallback ""); [contradiction | ].
    exists fallback. repeat split; [assumption | discriminate].
  - rewrite Hs. cbn [truthy].
    destruct (String.eqb_spec s "") as [-> | Hne]; cbn [negb ToString].
    + destruct (String.eqb_spec fallback ""); [contradiction | ].
      exists fallback. repeat split; [assumption | ].
      intros s' Hs' Hne'. injection Hs' as <-. contradiction.
    + destruct (String.eqb_spec s ""); [contradiction | ].
      exists s. repeat split; [assumption | ].
      intros s' Hs' _. now injection Hs' as <-.
Qed.

(** [failure_with_object_body_shows_alert] on a 404 with an empty object. *)
Lemma failure_with_object_body_shows_alert_witness :
  exists text,
    errorAlert (fetchPrediction (E := plainEngine) initial
                  (Responded 404 (inr (JObj []))))
    = Some text
    /\ text <> "".
Proof.
  destruct (failure_with_object_body_shows_alert plainEngine initial 404 []
              eq_refl (or_introl eq_refl))
    as (text & Halert & Hne & _).
  exists text. split; assumption.
Defined.

(** ** When reading a result throws *)

Section Throwing.
Import Screen.

Lemma isSome_mapM {A B : Type} (f : A -> option B) (l : list A) :
  isSome (mapM f l) = forallb (fun a => isSome (f a)) l.
Proof.
  induction l as [ | a l IH]; simpl.
  - reflexivity.
  - destruct (f a); simpl; [ | reflexivity].
    rewrite <- IH. destruct (mapM f l); reflexivity.
Qed.

Lemma getProp_field (v : JsVal) (k : string) :
  nullish v = false -> getProp v k = Some (field v k).
Proof.
  unfold field. destruct v; simpl; try discriminate; try reflexivity.
  destruct (assoc k props); reflexivity.
Qed.

Lemma getProp_nullish (v : JsVal) (k : string) :
  nullish v = true -> getProp v k = None.
Proof. destruct v; simpl; try discriminate; reflexivity. Qed.

Lemma truthy_not_nullish (v : JsVal) : truthy v = true -> nullish v = false.
Proof. destruct v; simpl; try discriminate; reflexivity. Qed.

Lemma isSome_getProp (v : JsVal) (k : string) :
  isSome (getProp v k) = negb (nullish v).
Proof.
  destruct v; simpl; try reflexivity. destruct (assoc k props); reflexivity.
Qed.

Lemma isSome_readPoint (xk yk : string) (item : JsVal) :
  isSome (readPoint xk yk item) = negb (nullish item).
Proof.
  unfold readPoint. destruct (nullish item) eqn:Hn.
  - now rewrite !getProp_nullish.
  - now rewrite !getProp_field.
Qed.

Lemma isSome_array_map {B : Type} (f : JsVal -> option B) (v : JsVal) :
  (forall item, isSome (f item) = negb (nullish item)) ->
  isSome (array_map f v) = isRecordArray v.
Proof.
  intros Hf. destruct v; simpl; try reflexivity.
  rewrite isSome_mapM. induction items as [ | item items IH]; simpl.
  - reflexivity.
  - now rewrite Hf, IH.
Qed.

Lemma isSome_points (xk yk : string) (v : JsVal) :
  isSome (array_map (readPoint xk yk) v) = isRecordArray v.
Proof. apply isSome_array_map. apply isSome_readPoint. Qed.

Lemma mapM_images {A B C : Type} (f : A -> option B) (g : B -> C)
  (h : A -> C) (l : list A) :
  (forall a b, f a = Some b -> g b = h a) ->
  forall bs, mapM f l = Some bs -> map g bs = map h l.
Proof.
  intros Hgh. induction l as [ | a l IH]; simpl; intros bs Hbs.
  - injection Hbs as <-. reflexivity.
  - destruct (f a) as [b | ] eqn:Hfa; simpl in Hbs; [ | discriminate].
    destruct (mapM f l) as [bs' | ]; simpl in Hbs; [ | discriminate].
    injection Hbs as <-. simpl. rewrite (Hgh a b Hfa). f_equal.
    now apply IH.
Qed.

Lemma readPoint_x (xk yk : string) (item : JsVal) (p : Point) :
  readPoint xk yk item = Some p -> x p = field item xk.
Proof.
  unfold readPoint, field.
  destruct (getProp item xk) as [a | ]; simpl; [ | discriminate].
  destruct (getProp item yk) as [b | ]; simpl; [ | discriminate].
  intros H. injection H as <-. reflexivity.
Qed.

Lemma points_xs (xk yk : string) (v : JsVal) (points : list Point) :
  array_map (readPoint xk yk) v = Some points ->
  exists items, v = JArr items
                /\ map x points = map (fun item => field item xk) items.
Proof.
  destruct v; simpl; try discriminate. intros H. exists items.
  split; [reflexivity | ].
  apply (mapM_images (readPoint xk yk) x (fun item => field item xk) items);
    [ | exact H].
  intros a b. apply readPoint_x.
Qed.

Lemma isSome_ToString {E : Engine} :
  forall v : JsVal, isSome (ToString v) = convertible v.
Proof.
  fix IH 1. intros [ | | b | f | s | items | props]; try reflexivity.
  - destruct b; reflexivity.
  - cbn [ToString convertible].
    induction items as [ | item rest IHrest]; [reflexivity | ].
    assert (Hitem : isSome match item with
                           | JUndefined | JNull => Some ""%string
                           | _ => ToString item
                           end = convertible item).
    { rewrite <- (IH item). destruct item; reflexivity. }
    destruct (match item with
              | JUndefined | JNull => Some ""%string
              | _ => ToString item
              end) as [part | ]; simpl in Hitem; rewrite <- Hitem;
      [ | reflexivity].
    cbn [bind andb]. rewrite <- IHrest.
    match goal with
    | |- context [bind ?m _] => destruct m; reflexivity
    end.
  - cbn [ToString convertible]. destruct (assoc "toString" props); reflexivity.
Qed.

Lemma isSome_ToNumber {E : Engine} (v : JsVal) :
  isSome (ToNumber v) = convertible v.
Proof.
  destruct v as [ | | b | f | s | items | props]; try reflexivity.
  - destruct b; reflexivity.
  - rewrite <- isSome_ToString. unfold ToNumber.
    destruct (ToString (JArr items)); reflexivity.
  - rewrite <- isSome_ToString. unfold ToNumber.
    destruct (ToString (JObj props)); reflexivity.
Qed.

Lemma isSome_percent {E : Engine} (v : JsVal) :
  isSome (js_mul v (JNum 100%float)) = convertible v.
Proof.
  rewrite <- isSome_ToNumber. unfold js_mul.
  destruct (ToNumber v); reflexivity.
Qed.

Lemma isSome_coverageTile {E : Engine} (coverage : JsVal) :
  isSome (coverageTile coverage) = falsy coverage || convertible coverage.
Proof.
  unfold coverageTile, falsy. destruct (truthy coverage); simpl.
  - rewrite <- isSome_percent.
    destruct (js_mul coverage (JNum 100%float)); reflexivity.
  - reflexivity.
Qed.

Lemma metricTiles_isSome {E : Engine} (result : JsVal) :
  isSome (metricTiles result)
  = negb (nullish result)
    && negb (nullish (field result "cv_metrics"))
    && isNumber (field (field result "cv_metrics") "mae")
    && isNumber (field (field result "cv_metrics") "rmse")
    && convertible (field (field result "cv_metrics") "mape")
    && (falsy (field (field result "cv_metrics") "coverage")
        || convertible (field (field result "cv_metrics") "coverage")).
Proof.
  unfold metricTiles. destruct (nullish result) eqn:Hr.
  - now rewrite getProp_nullish.
  - rewrite (getProp_field result _ Hr). cbn [bind negb andb].
    destruct (nullish (field result "cv_metrics")) eqn:Hcv.
    + now rewrite getProp_nullish.
    + rewrite !(getProp_field _ _ Hcv). cbn [bind negb andb].
      rewrite <- isSome_percent, <- isSome_coverageTile.
      destruct (js_mul (field (field result "cv_metrics") "mape")
                  (JNum 100%float)); cbn [bind isSome].
      * destruct (field (field result "cv_metrics") "mae");
          cbn [callToFixed bind isNumber isSome andb]; try reflexivity.
        destruct (field (field result "cv_metrics") "rmse");
          cbn [callToFixed bind isNumber isSome andb]; try reflexivity.
        destruct (coverageTile
                    (field (field result "cv_metrics") "coverage"));
          reflexivity.
      * now rewrite andb_false_r.
Qed.

Lemma ciData_isSome (result : JsVal) :
  isSome (ciData result)
  = falsy result || isRecordArray (field result "forecast_data").
Proof.
  unfold ciData, falsy. destruct (truthy result) eqn:Ht; [simpl | reflexivity].
  rewrite (getProp_field result _ (truthy_not_nullish result Ht)).
  cbn [bind].
  rewrite <- (isSome_points "date" "upper").
  destruct (array_map (readPoint "date" "upper") _) as [u | ] eqn:Hu;
    [ | reflexivity].
  cbn [bind].
  assert (Hl : isSome (array_map (readPoint "date" "lower")
                         (field result "forecast_data")) = true).
  { rewrite isSome_points, <- (isSome_points "date" "upper"), Hu.
    reflexivity. }
  destruct (array_map (readPoint "date" "lower") _); [reflexivity | ].
  discriminate Hl.
Qed.

End Throwing.

(** X6: building the main chart throws exactly when there is a truthy result
    whose [forecast_data] or [historical_actual] is not an array of values
    other than [undefined] and [null]; without a result it is the empty
    list, and otherwise it is the Actual series followed by the Predicted
    one. *)
Theorem prepareForecastChartData_throws_iff :
  forall result : JsVal,
    option_map (map id) (prepareForecastChartData result)
    = if falsy result then Some []
      else if Screen.isRecordArray (Screen.field result "forecast_data")
              && Screen.isRecordArray
                   (Screen.field result "historical_actual")
           then Some ["Actual"; "Predicted"]
           else None.
Proof.
  intros result. unfold prepareForecastChartData, falsy.
  destruct (truthy result) eqn:Ht; simpl; [ | reflexivity].
  rewrite !(getProp_field result _ (truthy_not_nullish result Ht)).
  cbn [bind].
  rewrite <- (isSome_points "date" "predicted").
  rewrite <- (isSome_points "date" "actual").
  destruct (array_map (readPoint "date" "actual") _);
    destruct (array_map (readPoint "date" "predicted") _); reflexivity.
Qed.

(** X7: the row of metric tiles throws exactly when the result or its
    [cv_metrics] is [undefined] or [null], [mae] or [rmse] is not a number,
    or [mape], or a truthy [coverage], has no number: an object with a
    [toString] property of its own, or an array holding one. Apart from
    that, [mape] and [coverage] may be missing or of any type. *)
Theorem metricTiles_throws_iff :
  forall (E : Engine) (result : JsVal),
    Screen.isSome (metricTiles result)
    = negb (Screen.nullish result)
      && negb (Screen.nullish (Screen.field result "cv_metrics"))
      && Screen.isNumber
           (Screen.field (Screen.field result "cv_metrics") "mae")
      && Screen.isNumber
           (Screen.field (Screen.field result "cv_metrics") "rmse")
      && Screen.convertible
           (Screen.field (Screen.field result "cv_metrics") "mape")
      && (falsy (Screen.field (Screen.field result "cv_metrics") "coverage")
          || Screen.convertible
               (Screen.field (Screen.field result "cv_metrics") "coverage")).
Proof. intros E result. apply metricTiles_isSome. Qed.

(** X8: a component chart is the empty list, without throwing, when there is
    no result, no [components] or no such component; it throws exactly when
    the component is truthy and not an array of values other than
    [undefined] and [null]; otherwise it is one series named after the
    component. *)
Theorem prepareComponentChartData_missing_or_throws :
  forall (result : JsVal) (componentName : string),
    option_map (map id) (prepareComponentChartData result componentName)
    = if falsy result
         || falsy (Screen.field result "components")
         || falsy (Screen.field (Screen.field result "components")
                     componentName)
      then Some []
      else if Screen.isRecordArray
                (Screen.field (Screen.field result "components")
                   componentName)
           then Some [componentName]
           else None.
Proof.
  intros result componentName.
  unfold prepareComponentChartData, falsy.
  destruct (truthy result) eqn:Ht; simpl; [ | reflexivity].
  rewrite (getProp_field result _ (truthy_not_nullish result Ht)).
  cbn [bind].
  destruct (truthy (Screen.field result "components")) eqn:Hc; simpl;
    [ | reflexivity].
  rewrite (getProp_field _ componentName (truthy_not_nullish _ Hc)).
  cbn [bind].
  destruct (truthy (Screen.field (Screen.field result "components")
                      componentName)) eqn:Hd; simpl;
    [ | reflexivity].
  rewrite <- (isSome_points "date" "value").
  destruct (array_map (readPoint "date" "value") _); reflexivity.
Qed.

(** X9: when the confidence band exists, its upper and lower lines have one
    point per element of [forecast_data], on the same [date]s in the same
    order, and these are the dates of the Predicted series. *)
Theorem confidence_band_on_predicted_dates :
  forall (result : JsVal) (band : CiData) (chartData : list Serie),
    ciData result = Some (Some band) ->
    prepareForecastChartData result = Some chartData ->
    exists items actual predicted,
      Screen.field result "forecast_data" = JArr items
      /\ chartData = [actual; predicted]
      /\ map x (ci_upper band)
         = map (fun item => Screen.field item "date") items
      /\ map x (ci_lower band) = map x (ci_upper band)
      /\ map x (data predicted) = map x (ci_upper band).
Proof.
  intros result band chartData. unfold ciData, prepareForecastChartData.
  destruct (falsy result) eqn:Hf; [discriminate | ].
  assert (Hn : Screen.nullish result = false).
  { apply truthy_not_nullish. unfold falsy in Hf.
    now destruct (truthy result). }
  rewrite !(getProp_field result _ Hn). cbn [bind].
  destruct (array_map (readPoint "date" "upper") _) as [u | ] eqn:Hu;
    [ | discriminate].
  destruct (array_map (readPoint "date" "lower") _) as [l | ] eqn:Hl;
    [ | discriminate].
  cbn [bind]. intros Hband. injection Hband as <-.
  destruct (array_map (readPoint "date" "actual") _) as [a | ];
    [ | discriminate].
  destruct (array_map (readPoint "date" "predicted") _) as [p | ] eqn:Hp;
    [ | discriminate].
  cbn [bind]. intros Hchart. injection Hchart as <-.
  destruct (points_xs _ _ _ _ Hu) as (items & Hitems & Hxu).
  destruct (points_xs _ _ _ _ Hl) as (items' & Hitems' & Hxl).
  destruct (points_xs _ _ _ _ Hp) as (items'' & Hitems'' & Hxp).
  rewrite Hitems in Hitems', Hitems''.
  injection Hitems' as <-. injection Hitems'' as <-.
  exists items. eexists. eexists.
  split; [exact Hitems | ]. split; [reflexivity | ]. simpl.
  split; [exact Hxu | ]. split; congruence.
Qed.

(** [confidence_band_on_predicted_dates] on a result with one forecast
    point and no history. *)
Lemma confidence_band_on_predicted_dates_witness :
  exists items,
    Screen.field
      (JObj [("forecast_data",
              JArr [JObj [("date", JStr "2024-01-01");
                          ("predicted", JNum 5%float);
                          ("lower", JNum 4%float);
                          ("upper", JNum 6%float)]]);
             ("historical_actual", JArr [])])
      "forecast_data"
    = JArr items
    /\ List.length items = 1.
Proof.
  destruct (confidence_band_on_predicted_dates
              (JObj [("forecast_data",
                      JArr [JObj [("date", JStr "2024-01-01");
                                  ("predicted", JNum 5%float);
                                  ("lower", JNum 4%float);
                                  ("upper", JNum 6%float)]]);
                     ("historical_actual", JArr [])])
              _ _ eq_refl eq_refl)
    as (items & _ & _ & Hitems & _ & Hxs & _).
  exists items. split; [exact Hitems | ].
  apply (f_equal (@List.length JsVal)) in Hxs.
  rewrite !length_map in Hxs. simpl in Hxs. now symmetry.
Defined.

(** ** What a render shows *)

Section Rendering.
Import Screen.
Context {E : Engine}.

Lemma render_without_result (st : State) :
  falsy (result st) = true ->
  render st
  = Some {| checkboxes :=
              map (fun varName => (varName, checkboxChecked st varName))
                  AVAILABLE_EXTRA_VARS;
            startDisabled := loading st;
            alert := errorAlert st;
            results := match result st with
                       | JNum f => StrayNumber f
                       | _ => Nothing
                       end |}.
Proof.
  intros Hf. unfold render, ciData, guarded. rewrite Hf.
  unfold falsy in Hf. destruct (truthy (result st)); [discriminate | ].
  reflexivity.
Qed.

Lemma render_needs (st : State) (screen : Screen.Screen) :
  truthy (result st) = true ->
  render st = Some screen ->
  isRecordArray (field (result st) "forecast_data") = true
  /\ nullish (field (result st) "cv_metrics") = false
  /\ isNumber (field (field (result st) "cv_metrics") "mae") = true
  /\ isNumber (field (field (result st) "cv_metrics") "rmse") = true
  /\ nullish (field (result st) "components") = false
  /\ exists area, results screen = Shown area.
Proof.
  intros Ht. unfold render, guarded. rewrite Ht.
  pose proof (ciData_isSome (result st)) as Hci.
  destruct (ciData (result st)) as [band | ]; [ | discriminate].
  unfold falsy in Hci. rewrite Ht in Hci. simpl in Hci.
  cbn [bind]. unfold resultsArea.
  pose proof (metricTiles_isSome (result st)) as Hm.
  destruct (metricTiles (result st)) as [t | ]; [ | discriminate].
  simpl in Hm. symmetry in Hm.
  apply andb_true_iff in Hm. destruct Hm as [Hm _].
  apply andb_true_iff in Hm. destruct Hm as [Hm _].
  apply andb_true_iff in Hm. destruct Hm as [Hm Hrmse].
  apply andb_true_iff in Hm. destruct Hm as [Hm Hmae].
  apply andb_true_iff in Hm. destruct Hm as [_ Hcv].
  apply negb_true_iff in Hcv.
  cbn [bind]. unfold tabLabels, extraRegressorsTab.
  rewrite (getProp_field (result st) _ (truthy_not_nullish _ Ht)).
  cbn [bind].
  pose proof (isSome_getProp (field (result st) "components")
                "extra_regressors") as Hc.
  destruct (getProp (field (result st) "components") "extra_regressors")
    as [er | ]; [ | discriminate].
  simpl in Hc. symmetry in Hc. apply negb_true_iff in Hc.
  cbn [bind].
  destruct (panelSlot (result st) (tabValue st)) as [shown | ];
    [ | discriminate].
  cbn [bind]. intros H. injection H as <-. simpl.
  repeat split; try assumption; try (now symmetry). eauto.
Qed.

Lemma settle_failed (st : State) (o : HttpOutcome) :
  succeeded o = false ->
  result (fetchPrediction st o) = JNull
  /\ loading (fetchPrediction st o) = false
  /\ selectedExtraVars (fetchPrediction st o) = selectedExtraVars st.
Proof.
  intros Hf. unfold fetchPrediction, fetchPrediction_settle.
  destruct (tryBlock_failed o Hf) as [message ->]. repeat split.
Qed.

Lemma settle_succeeded (st : State) (status : nat) (data : JsVal) :
  succeeded (Responded status (inr data)) = true ->
  fetchPrediction st (Responded status (inr data))
  = setLoadingErrorResult false None (field data "data")
      (fetchPrediction_begin st).
Proof.
  intros Hs. unfold fetchPrediction, fetchPrediction_settle.
  destruct (tryBlock_succeeded _ Hs)
    as (status' & data' & payload & Ho & _ & _ & Hdata & ->).
  injection Ho as <- <-. unfold field. rewrite Hdata. reflexivity.
Qed.

End Rendering.

(** X10: after a request that did not succeed the component renders without
    throwing: no results are shown, the start button is enabled again, the
    checkboxes are as before, and the alert is the one of the stored
    error. *)
Theorem render_after_failure :
  forall (E : Engine) (st : State) (o : HttpOutcome),
    succeeded o = false ->
    Screen.render (fetchPrediction st o)
    = Some {| Screen.checkboxes :=
                map (fun varName =>
                       (varName, Screen.checkboxChecked st varName))
                    AVAILABLE_EXTRA_VARS;
              Screen.startDisabled := false;
              Screen.alert := errorAlert (fetchPrediction st o);
              Screen.results := Screen.Nothing |}.
Proof.
  intros E st o Hf.
  destruct (settle_failed st o Hf) as (Hr & Hl & Hsel).
  rewrite render_without_result; [ | now rewrite Hr].
  rewrite Hr, Hl. unfold Screen.checkboxChecked. rewrite Hsel. reflexivity.
Qed.

(** [render_after_failure] on a rejected [fetch]. *)
Lemma render_after_failure_witness :
  Screen.render (E := plainEngine)
    (fetchPrediction (E := plainEngine) initial
       (FetchRejected "Failed to fetch"))
  = Some {| Screen.checkboxes :=
              map (fun varName =>
                     (varName, Screen.checkboxChecked initial varName))
                  AVAILABLE_EXTRA_VARS;
            Screen.startDisabled := false;
            Screen.alert := Some "Failed to fetch";
            Screen.results := Screen.Nothing |}.
Proof.
  exact (render_after_failure plainEngine initial
           (FetchRejected "Failed to fetch") eq_refl).
Defined.

(** X11: a success response whose [data] is missing or otherwise falsy
    leaves the page silent: no alert, no results area (at most the stray
    text of a falsy number), and no throw. *)
Theorem success_without_data_is_silent :
  forall (E : Engine) (st : State) (status : nat) (data : JsVal),
    succeeded (Responded status (inr data)) = true ->
    falsy (Screen.field data "data") = true ->
    Screen.render (fetchPrediction st (Responded status (inr data)))
    = Some {| Screen.checkboxes :=
                map (fun varName =>
                       (varName, Screen.checkboxChecked st varName))
                    AVAILABLE_EXTRA_VARS;
              Screen.startDisabled := false;
              Screen.alert := None;
              Screen.results :=
                match Screen.field data "data" with
                | JNum f => Screen.StrayNumber f
                | _ => Screen.Nothing
                end |}.
Proof.
  intros E st status data Hs Hf.
  rewrite (settle_succeeded st status data Hs).
  rewrite render_without_result; [reflexivity | exact Hf].
Qed.

(** [success_without_data_is_silent] on the body [{"status": "success"}]. *)
Lemma success_without_data_is_silent_witness :
  Screen.render (E := plainEngine)
    (fetchPrediction (E := plainEngine) initial
       (Responded 200 (inr (JObj [("status", JStr "success")]))))
  = Some {| Screen.checkboxes :=
              map (fun varName =>
                     (varName, Screen.checkboxChecked initial varName))
                  AVAILABLE_EXTRA_VARS;
            Screen.startDisabled := false;
            Screen.alert := None;
            Screen.results := Screen.Nothing |}.
Proof.
  exact (success_without_data_is_silent plainEngine initial 200
           (JObj [("status", JStr "success")]) eq_refl eq_refl).
Defined.

(** X12: for a render with a truthy result not to throw, the result must
    have an array [forecast_data] without [undefined] or [null] elements, a
    [cv_metrics] with numeric [mae] and [rmse], and a [components] that is
    neither [undefined] nor [null]; the results area is then shown. *)
Theorem render_with_result_needs :
  forall (E : Engine) (st : State) (screen : Screen.Screen),
    truthy (result st) = true ->
    Screen.render st = Some screen ->
    Screen.isRecordArray (Screen.field (result st) "forecast_data") = true
    /\ Screen.nullish (Screen.field (result st) "cv_metrics") = false
    /\ Screen.isNumber
         (Screen.field (Screen.field (result st) "cv_metrics") "mae") = true
    /\ Screen.isNumber
         (Screen.field (Screen.field (result st) "cv_metrics") "rmse") = true
    /\ Screen.nullish (Screen.field (result st) "components") = false
    /\ exists area, Screen.results screen = Screen.Shown area.
Proof. intros E st screen. apply render_needs. Qed.

(** [render_with_result_needs] on the render that follows a success
    response carrying the empty forecast. *)
Lemma render_with_result_needs_witness :
  Screen.isRecordArray
    (Screen.field (Contract.jsonResult Screen.emptyForecast) "forecast_data")
  = true
  /\ Screen.nullish
       (Screen.field (Contract.jsonResult Screen.emptyForecast) "components")
     = false.
Proof.
  destruct (Screen.render (E := plainEngine)
              (fetchPrediction (E := plainEngine) initial
                 (Responded 200
                    (inr (Contract.successBody Screen.emptyForecast)))))
    as [screen | ] eqn:Hrender; [ | vm_compute in Hrender; discriminate].
  destruct (render_with_result_needs plainEngine
              (fetchPrediction (E := plainEngine) initial
                 (Responded 200
                    (inr (Contract.successBody Screen.emptyForecast))))
              screen eq_refl Hrender)
    as (Hfd & _ & _ & _ & Hc & _).
  split; [exact Hfd | exact Hc].
Defined.

(** ** Rendering a result of the contract's shape *)

Section ContractRender.
Import Contract Screen.
Context {E : Engine}.

Lemma contract_ciData (r : ForecastResult) :
  exists band, ciData (jsonResult r) = Some (Some band).
Proof.
  unfold ciData. cbn -[mapM].
  rewrite (mapM_map _ _ _ (forecast_data r)
             (fun p => proj1 (proj2 (read_forecast p)))).
  rewrite (mapM_map _ _ _ (forecast_data r)
             (fun p => proj2 (proj2 (read_forecast p)))).
  eexists. reflexivity.
Qed.

Lemma contract_metricTiles (r : ForecastResult) :
  exists tileRow, metricTiles (jsonResult r) = Some tileRow.
Proof.
  destruct r as [ha fd c [mp ma rm [cov | ]]]; unfold metricTiles; cbn.
  - unfold coverageTile, js_mul. cbn.
    destruct (num_falsy cov); eexists; reflexivity.
  - eexists. reflexivity.
Qed.

Lemma contract_tabLabels (r : ForecastResult) :
  tabLabels (jsonResult r)
  = Some (["Forecast"; "Trend"; "Yearly Seasonality"]
          ++ match extra_regressors (components r) with
             | Some _ => ["Extra Regressors"]
             | None => []
             end).
Proof.
  unfold tabLabels. rewrite extraRegressorsTab_json.
  destruct (extra_regressors (components r)); reflexivity.
Qed.

Lemma contract_forecast_panel (r : ForecastResult) :
  exists chartData tickValues,
    prepareForecastChartData (jsonResult r) = Some chartData
    /\ getYearTicks chartData = Some tickValues.
Proof.
  unfold prepareForecastChartData. cbn -[mapM].
  rewrite (mapM_map _ _ _ (historical_actual r) read_actual).
  rewrite (mapM_map _ _ _ (forecast_data r)
             (fun p => proj1 (read_forecast p))).
  cbn [bind]. eexists. eexists. split; [reflexivity | ].
  unfold getYearTicks. cbn [flat_map data].
  rewrite app_nil_r, !map_map. cbn [x].
  rewrite <- (map_map actual_date JStr).
  rewrite <- (map_map forecast_date JStr).
  rewrite <- map_app. apply yearTicks_strings.
Qed.

Lemma contract_component_panel (r : ForecastResult) (name : string)
  (l : list ValuePoint) :
  getProp (jsonComponents (components r)) name = Some (jsonSeries l) ->
  exists chartData tickValues,
    prepareComponentChartData (jsonResult r) name = Some chartData
    /\ getComponentYearTicks (jsonResult r) name = Some tickValues.
Proof.
  intros Hget.
  unfold prepareComponentChartData, getComponentYearTicks.
  cbn -[array_map jsonSeries jsonComponents yearTicks yearTicksOf getProp].
  assert (Hc : getProp (jsonResult r) "components"
               = Some (jsonComponents (components r))) by reflexivity.
  rewrite Hc. cbn [bind].
  assert (Ht : falsy (jsonComponents (components r)) = false) by reflexivity.
  rewrite Ht, Hget. cbn [bind].
  assert (Hs : falsy (jsonSeries l) = false) by reflexivity.
  rewrite Hs, read_series, read_series_dates. cbn [bind].
  rewrite yearTicks_strings. eauto.
Qed.

Lemma contract_extra_panel (r : ForecastResult)
  (l : list (string * list ValuePoint)) :
  extra_regressors (components r) = Some l ->
  exists charts tickValues,
    extraRegressorCharts (jsonResult r) = Some charts
    /\ extraRegressorTicks (jsonResult r) = Some tickValues.
Proof.
  intros Hl. unfold extraRegressorCharts, extraRegressorTicks.
  assert (Hc : getProp (jsonResult r) "components"
               = Some (jsonComponents (components r))) by reflexivity.
  rewrite Hc. cbn [bind]. rewrite getProp_extra_regressors, Hl.
  cbn [bind truthy jsonRegressors objectEntries].
  assert (Hcharts :
    mapM (fun entry : string * JsVal =>
            points <- array_map (readPoint "date" "value") (snd entry) ;;
            Some {| id := fst entry; data := points;
                    color := blueAccent500 |})
         (map (fun e => (fst e, jsonSeries (snd e))) l)
    = Some (map (fun e =>
                   {| id := fst e;
                      data := map valuePoint (snd e);
                      color := blueAccent500 |}) l)).
  { apply mapM_map. intros [name pts].
    cbn -[array_map jsonSeries]. now rewrite read_series. }
  assert (Hticks :
    mapM (fun entry : string * JsVal =>
            allDates <- array_map (fun item => getProp item "date")
                          (snd entry) ;;
            yearTicks allDates)
         (map (fun e => (fst e, jsonSeries (snd e))) l)
    = Some (map (fun e => yearTicksOf (map date (snd e))) l)).
  { apply mapM_map. intros [name pts].
    cbn -[array_map jsonSeries yearTicks yearTicksOf].
    rewrite read_series_dates. cbn -[yearTicks yearTicksOf].
    apply yearTicks_strings. }
  rewrite Hcharts, Hticks. eauto.
Qed.

Lemma contract_panelSlot (r : ForecastResult) (tab : nat) :
  exists shown,
    panelSlot (jsonResult r) tab = Some shown
    /\ slotMap heading shown
       = match tab with
         | 0 => Shown "Historical Fit and Forecast"
         | 1 => Shown "Trend Component"
         | 2 => match yearly (components r) with
                | Some _ => Shown "Yearly Seasonality Component"
                | None => Nothing
                end
         | 3 => match extra_regressors (components r) with
                | Some _ => Shown "Extra Regressors Components"
                | None => Nothing
                end
         | _ => Nothing
         end.
Proof.
  assert (Hc : getProp (jsonResult r) "components"
               = Some (jsonComponents (components r))) by reflexivity.
  destruct tab as [ | [ | [ | [ | tab]]]]; unfold panelSlot.
  - destruct (contract_forecast_panel r) as (c & t & -> & Ht).
    cbn [bind]. rewrite Ht. eexists. split; reflexivity.
  - rewrite Hc. cbn [bind].
    assert (Hget : getProp (jsonComponents (components r)) "trend"
                   = Some (jsonSeries (trend (components r))))
      by reflexivity.
    destruct (contract_component_panel r "trend" _ Hget)
      as (c & t & Hchart & Hticks).
    rewrite Hget. cbn [bind]. unfold guarded. cbn [truthy jsonSeries].
    rewrite Hchart. cbn [bind]. rewrite Hticks.
    eexists. split; reflexivity.
  - rewrite Hc. cbn [bind].
    destruct (yearly (components r)) as [l | ] eqn:Hy.
    + assert (Hget : getProp (jsonComponents (components r)) "yearly"
                     = Some (jsonSeries l)).
      { destruct (components r) as [t y e]. simpl in Hy. subst y.
        reflexivity. }
      destruct (contract_component_panel r "yearly" _ Hget)
        as (c & t & Hchart & Hticks).
      rewrite Hget. cbn [bind]. unfold guarded. cbn [truthy jsonSeries].
      rewrite Hchart. cbn [bind]. rewrite Hticks.
      eexists. split; reflexivity.
    + assert (Hget : getProp (jsonComponents (components r)) "yearly"
                     = Some JUndefined).
      { destruct (components r) as [t y [e | ]]; simpl in Hy; subst y;
          reflexivity. }
      rewrite Hget. eexists. split; reflexivity.
  - rewrite Hc. cbn [bind]. rewrite getProp_extra_regressors.
    destruct (extra_regressors (components r)) as [l | ] eqn:He.
    + destruct (contract_extra_panel r l He) as (c & t & Hchart & Hticks).
      cbn [bind]. unfold guarded. cbn [truthy jsonRegressors].
      rewrite Hchart. cbn [bind]. rewrite Hticks.
      eexists. split; reflexivity.
    + eexists. split; reflexivity.
  - eexists. split; reflexivity.
Qed.

End ContractRender.

(** X13: for every success response of the contract's shape the next render
    does not throw and shows the results area, without alert. The tabs are
    Forecast, Trend, Yearly Seasonality and, when [extra_regressors] is
    present, Extra Regressors. The tab selection is the one from before the
    request: the Forecast and Trend panels always show; the Yearly panel is
    blank when the result has no [yearly] component, the Extra Regressors
    panel is blank when the result has no [extra_regressors], and so is any
    further tab index. *)
Theorem render_after_contract_success :
  forall (E : Engine) (st : State) (r : Contract.ForecastResult),
    exists screen area,
      Screen.render
        (fetchPrediction st (Responded 200 (inr (Contract.successBody r))))
      = Some screen
      /\ Screen.alert screen = None
      /\ Screen.startDisabled screen = false
      /\ Screen.results screen = Screen.Shown area
      /\ Screen.tabs area
         = ["Forecast"; "Trend"; "Yearly Seasonality"]
           ++ match Contract.extra_regressors (Contract.components r) with
              | Some _ => ["Extra Regressors"]
              | None => []
              end
      /\ Screen.slotMap Screen.heading (Screen.panel area)
         = match tabValue st with
           | 0 => Screen.Shown "Historical Fit and Forecast"
           | 1 => Screen.Shown "Trend Component"
           | 2 => match Contract.yearly (Contract.components r) with
                  | Some _ => Screen.Shown "Yearly Seasonality Component"
                  | None => Screen.Nothing
                  end
           | 3 => match Contract.extra_regressors (Contract.components r) with
                  | Some _ => Screen.Shown "Extra Regressors Components"
                  | None => Screen.Nothing
                  end
           | _ => Screen.Nothing
           end.
Proof.
  intros E st r.
  assert (Hst : fetchPrediction st
                  (Responded 200 (inr (Contract.successBody r)))
                = setLoadingErrorResult false None (Contract.jsonResult r)
                    (fetchPrediction_begin st)) by reflexivity.
  rewrite Hst. unfold Screen.render, Screen.resultsArea.
  cbn [result setLoadingErrorResult tabValue fetchPrediction_begin].
  destruct (contract_ciData r) as [band ->].
  destruct (contract_metricTiles r) as [tileRow Htiles].
  destruct (contract_panelSlot r (tabValue st)) as (shown & Hpanel & Hhead).
  unfold Screen.guarded. cbn [truthy Contract.jsonResult bind].
  change (JObj
            [("historical_actual",
              JArr (map Contract.jsonActual (Contract.historical_actual r)));
             ("forecast_data",
              JArr (map Contract.jsonForecast (Contract.forecast_data r)));
             ("components", Contract.jsonComponents (Contract.components r));
             ("cv_metrics", Contract.jsonMetrics (Contract.cv_metrics r))])
    with (Contract.jsonResult r).
  rewrite Htiles, contract_tabLabels, Hpanel. cbn [bind].
  eexists. eexists. split; [reflexivity | ].
  cbn [Screen.alert Screen.startDisabled Screen.results Screen.tabs
       Screen.panel].
  repeat split; try reflexivity. exact Hhead.
Qed.

(** ** Year ticks *)

Section Ticks.
Import Screen.

Lemma insertSorted_In (s x : string) (l : list string) :
  In x (insertSorted s l) <-> x = s \/ In x l.
Proof.
  induction l as [ | t l IH]; simpl.
  - intuition congruence.
  - destruct (String.leb s t); simpl.
    + intuition congruence.
    + rewrite IH. intuition congruence.
Qed.

Lemma sortStrings_In (x : string) (l : list string) :
  In x (sortStrings l) <-> In x l.
Proof.
  unfold sortStrings. induction l as [ | s l IH]; simpl.
  - tauto.
  - rewrite insertSorted_In, IH. intuition congruence.
Qed.

Lemma insertSorted_length (s : string) (l : list string) :
  List.length (insertSorted s l) = S (List.length l).
Proof.
  induction l as [ | t l IH]; simpl.
  - reflexivity.
  - destruct (String.leb s t); simpl; [reflexivity | now rewrite IH].
Qed.

Lemma sortStrings_length (l : list string) :
  List.length (sortStrings l) = List.length l.
Proof.
  unfold sortStrings. induction l as [ | s l IH]; simpl.
  - reflexivity.
  - now rewrite insertSorted_length, IH.
Qed.

Lemma insertSorted_ascending (s : string) (l : list string) :
  ascending l -> ascending (insertSorted s l).
Proof.
  unfold ascending. intros Hl.
  induction Hl as [ | t l Hl IH Ht]; simpl.
  - repeat constructor.
  - destruct (String.leb s t) eqn:Hst.
    + constructor; [now constructor | now constructor].
    + assert (Hts : String.leb t s = true).
      { destruct (String.leb_total s t) as [H | H]; [congruence | exact H]. }
      constructor; [exact IH | ].
      destruct l as [ | u l]; simpl.
      * now constructor.
      * destruct (String.leb s u); constructor; [exact Hts | ].
        now inversion Ht.
Qed.

Lemma sortStrings_ascending (l : list string) : ascending (sortStrings l).
Proof.
  unfold sortStrings. induction l as [ | s l IH]; simpl.
  - constructor.
  - now apply insertSorted_ascending.
Qed.

Lemma insertSorted_NoDup (s : string) (l : list string) :
  ~ In s l -> NoDup l -> NoDup (insertSorted s l).
Proof.
  intros Hs Hl. induction Hl as [ | t l Ht Hl IH]; simpl.
  - constructor; [exact Hs | constructor].
  - destruct (String.leb s t).
    + constructor; [exact Hs | now constructor].
    + constructor.
      * rewrite insertSorted_In. intros [-> | H].
        -- apply Hs. now left.
        -- contradiction.
      * apply IH. intros H. apply Hs. now right.
Qed.

Lemma sortStrings_NoDup (l : list string) : NoDup l -> NoDup (sortStrings l).
Proof.
  unfold sortStrings. intros Hl. induction Hl as [ | s l Hs Hl IH]; simpl.
  - constructor.
  - apply insertSorted_NoDup; [ | exact IH].
    fold (sortStrings l). now rewrite sortStrings_In.
Qed.

Lemma uniq_In (x : string) (l : list string) : In x (uniq l) <-> In x l.
Proof.
  induction l as [ | s l IH]; simpl.
  - tauto.
  - rewrite filter_In, IH.
    destruct (String.eqb_spec x s) as [-> | Hxs]; simpl.
    + intuition congruence.
    + intuition congruence.
Qed.

Lemma uniq_NoDup (l : list string) : NoDup (uniq l).
Proof.
  induction l as [ | s l IH]; simpl.
  - constructor.
  - constructor.
    + rewrite filter_In. intros [_ H]. now rewrite String.eqb_refl in H.
    + now apply NoDup_filter.
Qed.

Lemma uniq_length (l : list string) :
  List.length (uniq l) <= List.length l.
Proof.
  induction l as [ | s l IH]; simpl.
  - lia.
  - pose proof (filter_length_le (fun t => negb (String.eqb t s)) (uniq l)).
    lia.
Qed.

Lemma prefix_beforeDash (d : string) : String.prefix (beforeDash d) d = true.
Proof.
  induction d as [ | c d IH]; simpl.
  - reflexivity.
  - destruct (Ascii.eqb c "-"); simpl; [reflexivity | ].
    destruct (ascii_dec c c); [exact IH | contradiction].
Qed.

Lemma prefix_same_year (d' : string) :
  forall d,
    String.length (beforeDash d) = String.length (beforeDash d') ->
    String.prefix (beforeDash d') d = true ->
    beforeDash d = beforeDash d'.
Proof.
  induction d' as [ | c d' IH]; intros d Hlen Hpre.
  - simpl in *. destruct (beforeDash d); [reflexivity | discriminate].
  - simpl in *. destruct (Ascii.eqb c "-") eqn:Hc.
    + simpl in Hlen. destruct (beforeDash d); [reflexivity | discriminate].
    + destruct d as [ | b d]; simpl in Hpre; [discriminate | ].
      destruct (ascii_dec c b) as [<- | ]; [ | discriminate].
      simpl in Hlen |- *. rewrite Hc in Hlen |- *. simpl in Hlen.
      f_equal. apply IH; [lia | exact Hpre].
Qed.

(** The tick chosen for a year, as [yearTicksOf] computes it. *)
Lemma tick_of_year (allDates : list string) (d : string) :
  In d allDates ->
  exists first,
    find (String.prefix (beforeDash d)) allDates = Some first
    /\ In first allDates
    /\ String.prefix (beforeDash d) first = true.
Proof.
  intros Hd.
  destruct (find (String.prefix (beforeDash d)) allDates) as [first | ]
    eqn:Hfind.
  - apply find_some in Hfind. exists first. tauto.
  - pose proof (find_none _ _ Hfind d Hd) as H.
    now rewrite prefix_beforeDash in H.
Qed.

Lemma yearTicksOf_In (allDates : list string) (t : string) :
  ~ In "" allDates ->
  In t (yearTicksOf allDates) ->
  exists d,
    In d allDates
    /\ find (String.prefix (beforeDash d)) allDates = Some t
    /\ In t allDates.
Proof.
  intros Hne Ht. unfold yearTicksOf in Ht.
  apply (proj1 (sortStrings_In _ _)) in Ht. apply in_map_iff in Ht.
  destruct Ht as (year & Htick & Hyear).
  apply (proj1 (uniq_In _ _)) in Hyear. apply in_map_iff in Hyear.
  destruct Hyear as (d & <- & Hd).
  destruct (tick_of_year allDates d Hd) as (first & Hfind & Hin & _).
  rewrite Hfind in Htick.
  destruct (String.eqb_spec first "") as [Hempty | _].
  - rewrite Hempty in Hin. contradiction.
  - subst t. exists d. tauto.
Qed.

End Ticks.

(** X14: the year ticks of any list of dates are in ascending order, as many
    as there are distinct years (so at most as many as dates), and, when no
    date is the empty string, every tick is one of the dates: the first date
    that starts with the year of some date. The ["-01-01"] fallback is then
    never used. *)
Theorem yearTicksOf_ascending_dates :
  forall allDates : list string,
    Screen.ascending (yearTicksOf allDates)
    /\ List.length (yearTicksOf allDates)
       = List.length (uniq (map beforeDash allDates))
    /\ List.length (yearTicksOf allDates) <= List.length allDates
    /\ (yearTicksOf allDates = [] <-> allDates = [])
    /\ (~ In "" allDates ->
        forall t,
          In t (yearTicksOf allDates) ->
          In t allDates
          /\ exists d,
               In d allDates
               /\ find (String.prefix (beforeDash d)) allDates = Some t).
Proof.
  intros allDates.
  assert (Hlen : List.length (yearTicksOf allDates)
                 = List.length (uniq (map beforeDash allDates))).
  { unfold yearTicksOf. now rewrite sortStrings_length, length_map. }
  split; [apply sortStrings_ascending | ].
  split; [exact Hlen | ].
  split.
  { rewrite Hlen. pose proof (uniq_length (map beforeDash allDates)) as H.
    now rewrite length_map in H. }
  split.
  { split.
    - intros Hnil. rewrite Hnil in Hlen. simpl in Hlen.
      destruct allDates as [ | d l]; [reflexivity | ].
      simpl in Hlen. discriminate Hlen.
    - intros ->. reflexivity. }
  intros Hne t Ht.
  destruct (yearTicksOf_In allDates t Hne Ht) as (d & Hd & Hfind & Hin).
  split; [exact Hin | ]. exists d. tauto.
Qed.

(** [yearTicksOf_ascending_dates] on three monthly dates over two years. *)
Lemma yearTicksOf_ascending_dates_witness :
  ~ In "" ["2020-11-01"; "2020-12-01"; "2021-01-01"]
  /\ (In "2021-01-01"
        (yearTicksOf ["2020-11-01"; "2020-12-01"; "2021-01-01"]) ->
      In "2021-01-01" ["2020-11-01"; "2020-12-01"; "2021-01-01"]).
Proof.
  assert (Hne : ~ In "" ["2020-11-01"; "2020-12-01"; "2021-01-01"]).
  { simpl. intros H.
    repeat (destruct H as [H | H]; [discriminate H | ]). exact H. }
  split; [exact Hne | ].
  intros Ht.
  destruct (yearTicksOf_ascending_dates
              ["2020-11-01"; "2020-12-01"; "2021-01-01"])
    as (_ & _ & _ & _ & Hdates).
  exact (proj1 (Hdates Hne "2021-01-01" Ht)).
Defined.

Section FirstOfYear.
Import Screen.

Lemma find_ext_in {A : Type} (f g : A -> bool) (l : list A) :
  (forall a, In a l -> f a = g a) -> find f l = find g l.
Proof.
  induction l as [ | a l IH]; intros H; simpl.
  - reflexivity.
  - rewrite (H a (or_introl eq_refl)).
    destruct (g a); [reflexivity | ].
    apply IH. intros b Hb. apply H. now right.
Qed.

Lemma insertSorted_Permutation (s : string) (l : list string) :
  Permutation (insertSorted s l) (s :: l).
Proof.
  induction l as [ | t l IH]; simpl.
  - reflexivity.
  - destruct (String.leb s t); [reflexivity | ].
    rewrite IH. apply perm_swap.
Qed.

Lemma sortStrings_Permutation (l : list string) :
  Permutation (sortStrings l) l.
Proof.
  unfold sortStrings. induction l as [ | s l IH]; simpl.
  - reflexivity.
  - rewrite insertSorted_Permutation. now constructor.
Qed.

Variable allDates : list string.
Variable yearLength : nat.
Hypothesis no_empty_date : ~ In "" allDates.
Hypothesis uniform_years :
  forall d, In d allDates -> String.length (beforeDash d) = yearLength.

Lemma find_prefix_is_firstOfYear (d : string) :
  In d allDates ->
  find (String.prefix (beforeDash d)) allDates
  = firstOfYear (beforeDash d) allDates.
Proof.
  intros Hd. unfold firstOfYear. apply find_ext_in. intros a Ha.
  destruct (String.eqb_spec (beforeDash a) (beforeDash d)) as [Heq | Hne].
  - rewrite <- Heq. apply prefix_beforeDash.
  - destruct (String.prefix (beforeDash d) a) eqn:Hp; [ | reflexivity].
    exfalso. apply Hne. apply prefix_same_year; [ | exact Hp].
    now rewrite (uniform_years a Ha), (uniform_years d Hd).
Qed.

Lemma tick_is_firstOfYear (d : string) :
  In d allDates ->
  exists first,
    firstOfYear (beforeDash d) allDates = Some first
    /\ beforeDash first = beforeDash d
    /\ match find (String.prefix (beforeDash d)) allDates with
       | Some firstMonth =>
           if String.eqb firstMonth ""
           then (beforeDash d ++ "-01-01")%string
           else firstMonth
       | None => (beforeDash d ++ "-01-01")%string
       end = first.
Proof.
  intros Hd. rewrite (find_prefix_is_firstOfYear d Hd).
  destruct (firstOfYear (beforeDash d) allDates) as [first | ] eqn:Hfind.
  - unfold firstOfYear in Hfind. apply find_some in Hfind.
    destruct Hfind as [Hin Heq]. apply String.eqb_eq in Heq.
    exists first. repeat split; [exact Heq | ].
    destruct (String.eqb_spec first "") as [Hempty | _]; [ | reflexivity].
    rewrite Hempty in Hin. contradiction.
  - unfold firstOfYear in Hfind.
    pose proof (find_none _ _ Hfind d Hd) as H. simpl in H.
    now rewrite String.eqb_refl in H.
Qed.

Lemma years_of_ticks :
  map beforeDash
    (map (fun year =>
            match find (String.prefix year) allDates with
            | Some firstMonth =>
                if String.eqb firstMonth "" then (year ++ "-01-01")%string
                else firstMonth
            | None => (year ++ "-01-01")%string
            end)
         (uniq (map beforeDash allDates)))
  = uniq (map beforeDash allDates).
Proof.
  rewrite map_map.
  assert (H : forall years,
             (forall y, In y years -> In y (map beforeDash allDates)) ->
             map (fun year =>
                    beforeDash
                      match find (String.prefix year) allDates with
                      | Some firstMonth =>
                          if String.eqb firstMonth ""
                          then (year ++ "-01-01")%string
                          else firstMonth
                      | None => (year ++ "-01-01")%string
                      end) years
             = years).
  { induction years as [ | y years IH]; intros Hin; simpl.
    - reflexivity.
    - rewrite IH by (intros z Hz; apply Hin; now right). f_equal.
      destruct (proj1 (in_map_iff _ _ _) (Hin y (or_introl eq_refl)))
        as (d & <- & Hd).
      destruct (tick_is_firstOfYear d Hd) as (first & _ & Hyear & ->).
      exact Hyear. }
  apply H. intros y Hy. now apply (proj1 (uniq_In _ _)).
Qed.

Lemma ticks_one_per_year :
  NoDup (map beforeDash (yearTicksOf allDates)).
Proof.
  unfold yearTicksOf.
  apply (Permutation_NoDup
           (l := map beforeDash
                   (map (fun year =>
                           match find (String.prefix year) allDates with
                           | Some firstMonth =>
                               if String.eqb firstMonth ""
                               then (year ++ "-01-01")%string
                               else firstMonth
                           | None => (year ++ "-01-01")%string
                           end)
                      (uniq (map beforeDash allDates))))).
  - apply Permutation_map. symmetry. apply sortStrings_Permutation.
  - rewrite years_of_ticks. apply uniq_NoDup.
Qed.

Lemma ticks_are_firsts (t : string) :
  In t (yearTicksOf allDates)
  <-> exists d,
        In d allDates /\ firstOfYear (beforeDash d) allDates = Some t.
Proof.
  split.
  - intros Ht.
    destruct (yearTicksOf_In allDates t no_empty_date Ht)
      as (d & Hd & Hfind & _).
    exists d. split; [exact Hd | ].
    now rewrite <- (find_prefix_is_firstOfYear d Hd).
  - intros (d & Hd & Hfirst).
    unfold yearTicksOf. apply sortStrings_In. apply in_map_iff.
    exists (beforeDash d). split.
    + destruct (tick_is_firstOfYear d Hd) as (first & Hf & _ & ->).
      congruence.
    + apply uniq_In. now apply in_map.
Qed.

End FirstOfYear.

(** X15: when no date is empty and the year parts of all dates have the same
    length (as in YYYY-MM-DD), the ticks are exactly the first date of each
    year that occurs, one tick per year and no tick twice. *)
Theorem yearTicksOf_first_date_of_each_year :
  forall (allDates : list string) (yearLength : nat),
    ~ In "" allDates ->
    (forall d, In d allDates -> String.length (beforeDash d) = yearLength) ->
    NoDup (yearTicksOf allDates)
    /\ NoDup (map beforeDash (yearTicksOf allDates))
    /\ forall t,
         In t (yearTicksOf allDates)
         <-> exists d,
               In d allDates
               /\ Screen.firstOfYear (beforeDash d) allDates = Some t.
Proof.
  intros allDates yearLength Hne Hlen.
  pose proof (ticks_one_per_year allDates yearLength Hne Hlen) as Hyears.
  split; [now apply (NoDup_map_inv beforeDash) | ].
  split; [exact Hyears | ].
  intros t. now apply (ticks_are_firsts allDates yearLength).
Qed.

(** [yearTicksOf_first_date_of_each_year] on three monthly dates over two
    years. *)
Lemma yearTicksOf_first_date_of_each_year_witness :
  NoDup (yearTicksOf ["2020-11-01"; "2020-12-01"; "2021-01-01"]).
Proof.
  assert (Hne : ~ In "" ["2020-11-01"; "2020-12-01"; "2021-01-01"]).
  { simpl. intros H.
    repeat (destruct H as [H | H]; [discriminate H | ]). exact H. }
  assert (Hlen : forall d,
             In d ["2020-11-01"; "2020-12-01"; "2021-01-01"] ->
             String.length (beforeDash d) = 4).
  { simpl. intros d H.
    repeat (destruct H as [H | H]; [subst d; reflexivity | ]).
    contradiction. }
  exact (proj1 (yearTicksOf_first_date_of_each_year
                  ["2020-11-01"; "2020-12-01"; "2021-01-01"] 4 Hne Hlen)).
Defined.

(** ** The confidence band's path *)

Section AreaPath.
Import Screen.
Context {E : Engine}.
Variables xScale yScale : Screen.Scale.

Lemma append_assoc (a b c : string) :
  ((a ++ b) ++ c = a ++ (b ++ c))%string.
Proof.
  induction a as [ | ch a IH]; simpl; [reflexivity | now rewrite IH].
Qed.

Lemma append_empty_r (a : string) : (a ++ "")%string = a.
Proof.
  induction a as [ | ch a IH]; simpl; [reflexivity | now rewrite IH].
Qed.

Lemma drawLower_joined (points : list Point) :
  forall path,
    fold_left
      (fun path point => (path ++ " L " ++ vertex xScale yScale point)%string)
      points path
    = (path ++ joined (map (lineTo xScale yScale) points))%string.
Proof.
  induction points as [ | p points IH]; intros path; simpl.
  - now rewrite append_empty_r.
  - rewrite IH. unfold lineTo. now rewrite append_assoc.
Qed.

Lemma drawUpper_joined (points : list Point) :
  forall index path,
    drawUpper xScale yScale (S index) points path
    = (path ++ joined (map (lineTo xScale yScale) points))%string.
Proof.
  induction points as [ | p points IH]; intros index path; simpl.
  - now rewrite append_empty_r.
  - rewrite IH. unfold lineTo. now rewrite append_assoc.
Qed.

Lemma joined_app (l l' : list string) :
  joined (l ++ l') = (joined l ++ joined l')%string.
Proof.
  induction l as [ | s l IH]; simpl; [reflexivity | ].
  now rewrite IH, append_assoc.
Qed.

Lemma createAreaPath_closed (upper lower : list Point) :
  createAreaPath xScale yScale upper lower
  = match upper, lower with
    | first :: rest, _ :: _ =>
        ("M " ++ vertex xScale yScale first
         ++ joined (map (lineTo xScale yScale) (rest ++ rev lower)) ++ " Z")%string
    | _, _ => ""
    end.
Proof.
  unfold createAreaPath.
  destruct upper as [ | first rest]; [reflexivity | ].
  destruct lower as [ | l0 lower]; [reflexivity | ].
  cbn [List.length Nat.eqb orb drawUpper].
  rewrite drawUpper_joined, drawLower_joined.
  rewrite map_app, joined_app. cbn [String.append].
  now rewrite !append_assoc.
Qed.

End AreaPath.

(** X16: the path of the confidence band is empty when either line has no
    point; otherwise it moves to the first upper point, draws a line through
    the remaining upper points in order and then through the lower points
    in reverse order, and closes: one vertex per point of both lines. *)
Theorem createAreaPath_outline :
  forall (E : Engine) (xScale yScale : Screen.Scale)
         (upper lower : list Point),
    Screen.createAreaPath xScale yScale upper lower
    = match upper, lower with
      | first :: rest, _ :: _ =>
          ("M " ++ Screen.vertex xScale yScale first
           ++ Screen.joined
                (map (fun point =>
                        (" L " ++ Screen.vertex xScale yScale point)%string)
                     (rest ++ rev lower))
           ++ " Z")%string
      | _, _ => ""
      end.
Proof. intros E xScale yScale upper lower. apply createAreaPath_closed. Qed.

(** ** The regressor charts *)

(** X17: when [extra_regressors] is an object and its charts can be built,
    there is one chart per property, in the object's order, each titled by
    the property's name, with one point per element of its array; and one
    list of ticks per chart when the dates are strings. *)
Theorem extra_charts_follow_entries :
  forall (result components : JsVal) (props : list (string * JsVal))
         (charts : list Serie),
    getProp result "components" = Some components ->
    getProp components "extra_regressors" = Some (JObj props) ->
    extraRegressorCharts result = Some charts ->
    map id charts = keys props
    /\ map (fun chart => Some (List.length (data chart))) charts
       = map (fun entry =>
                match snd entry with
                | JArr items => Some (List.length items)
                | _ => None
                end) props
    /\ forall ticks,
         extraRegressorTicks result = Some ticks ->
         List.length ticks = List.length charts.
Proof.
  intros result components props charts Hc He.
  unfold extraRegressorCharts, extraRegressorTicks.
  rewrite Hc. cbn [bind]. rewrite He. cbn [bind truthy objectEntries].
  intros Hcharts.
  split; [ | split].
  - unfold keys.
    apply (mapM_images _ id fst props) in Hcharts; [exact Hcharts | ].
    intros [name v] chart. simpl.
    destruct (array_map (readPoint "date" "value") v); simpl;
      [ | discriminate].
    intros H. now injection H as <-.
  - apply (mapM_images _
             (fun chart => Some (List.length (data chart)))
             (fun entry : string * JsVal =>
                match snd entry with
                | JArr items => Some (List.length items)
                | _ => None
                end) props) in Hcharts; [exact Hcharts | ].
    intros [name v] chart. simpl.
    destruct (array_map (readPoint "date" "value") v) as [points | ] eqn:Hp;
      simpl; [ | discriminate].
    intros H. injection H as <-. simpl.
    destruct (points_xs _ _ _ _ Hp) as (items & -> & Hxs).
    apply (f_equal (@List.length JsVal)) in Hxs.
    rewrite !length_map in Hxs. now rewrite Hxs.
  - intros ticks Hticks.
    apply (mapM_images _ (fun _ => tt) (fun _ => tt) props) in Hticks;
      [ | reflexivity].
    apply (mapM_images _ (fun _ => tt) (fun _ => tt) props) in Hcharts;
      [ | reflexivity].
    apply (f_equal (@List.length unit)) in Hticks, Hcharts.
    rewrite !length_map in Hticks, Hcharts. congruence.
Qed.

(** [extra_charts_follow_entries] on a result with two regressors. *)
Lemma extra_charts_follow_entries_witness :
  exists charts,
    extraRegressorCharts
      (JObj [("components",
              JObj [("extra_regressors",
                     JObj [("total_population",
                            JArr [JObj [("date", JStr "2024-01-01");
                                        ("value", JNum 2%float)]]);
                           ("age_85_plus", JArr [])])])])
    = Some charts
    /\ map id charts = ["total_population"; "age_85_plus"].
Proof.
  eexists. split; [reflexivity | ].
  exact (proj1 (extra_charts_follow_entries
                  (JObj [("components",
                          JObj [("extra_regressors",
                                 JObj [("total_population",
                                        JArr [JObj [("date",
                                                     JStr "2024-01-01");
                                                    ("value",
                                                     JNum 2%float)]]);
                                       ("age_85_plus", JArr [])])])])
                  _ _ _ eq_refl eq_refl eq_refl)).
Defined.

(** ** Ticks need string dates *)

Section TickDates.
Import Screen.

Lemma forallb_of_map {A B : Type} (p : B -> bool) (f : A -> B)
  (l : list A) :
  forallb p (map f l) = forallb (fun a => p (f a)) l.
Proof.
  induction l as [ | a l IH]; simpl; [reflexivity | now rewrite IH].
Qed.

Lemma isSome_yearTicks (allDates : list JsVal) :
  isSome (yearTicks allDates) = forallb isString allDates.
Proof.
  unfold yearTicks.
  assert (H : isSome (mapM asString allDates) = forallb isString allDates).
  { rewrite isSome_mapM. induction allDates as [ | v l IH]; simpl.
    - reflexivity.
    - rewrite IH. destruct v; reflexivity. }
  destruct (mapM asString allDates); exact H.
Qed.

Lemma dates_of_records (items : list JsVal) :
  forallb (fun item => negb (nullish item)) items = true ->
  mapM (fun item => getProp item "date") items
  = Some (map (fun item => field item "date") items).
Proof.
  induction items as [ | item items IH]; simpl; intros H.
  - reflexivity.
  - apply andb_true_iff in H. destruct H as [Hitem Hrest].
    apply negb_true_iff in Hitem.
    rewrite (getProp_field item "date" Hitem), (IH Hrest). reflexivity.
Qed.

Lemma isSome_component_ticks (componentData : JsVal) :
  isSome (allDates <- array_map (fun item => getProp item "date")
                        componentData ;;
          yearTicks allDates)
  = isRecordArray componentData && datesAreStrings componentData.
Proof.
  destruct componentData; try reflexivity. simpl.
  destruct (forallb (fun item => negb (nullish item)) items) eqn:Hrec.
  - rewrite (dates_of_records items Hrec). cbn [bind andb].
    rewrite isSome_yearTicks, forallb_of_map. reflexivity.
  - pose proof (isSome_mapM (fun item => getProp item "date") items) as H.
    assert (Hsame : forallb (fun a => isSome (getProp a "date")) items
                    = forallb (fun item => negb (nullish item)) items).
    { clear. induction items as [ | item items IH]; simpl.
      - reflexivity.
      - now rewrite IH, isSome_getProp. }
    cbv beta in H. rewrite Hsame, Hrec in H.
    destruct (mapM (fun item => getProp item "date") items);
      [discriminate H | reflexivity].
Qed.

Lemma yearTicks_value (allDates : list JsVal) :
  yearTicks allDates
  = if forallb isString allDates
    then Some (yearTicksOf (map stringOf allDates))
    else None.
Proof.
  unfold yearTicks.
  assert (H : mapM asString allDates
              = if forallb isString allDates
                then Some (map stringOf allDates) else None).
  { induction allDates as [ | v l IH]; simpl; [reflexivity | ].
    rewrite IH. destruct v; simpl; try reflexivity.
    destruct (forallb isString l); reflexivity. }
  rewrite H. destruct (forallb isString allDates); reflexivity.
Qed.

Lemma component_ticks (componentData : JsVal) :
  (allDates <- array_map (fun item => getProp item "date") componentData ;;
   yearTicks allDates)
  = if isRecordArray componentData && datesAreStrings componentData
    then Some (yearTicksOf (dateStrings componentData))
    else None.
Proof.
  pose proof (isSome_component_ticks componentData) as Hsome.
  destruct (isRecordArray componentData && datesAreStrings componentData)
    eqn:Hok.
  - apply andb_true_iff in Hok. destruct Hok as [Hrec Hdates].
    destruct componentData; try discriminate Hrec. simpl in Hrec, Hdates.
    cbn [array_map]. rewrite (dates_of_records items Hrec). cbn [bind].
    rewrite yearTicks_value, forallb_of_map, Hdates.
    unfold dateStrings. now rewrite map_map.
  - destruct (allDates <- array_map (fun item => getProp item "date")
                            componentData ;;
              yearTicks allDates); [discriminate Hsome | reflexivity].
Qed.

End TickDates.

(** X18: the year ticks of a component are the empty list when the result,
    its [components] or the component is missing; otherwise computing them
    throws unless the component is an array of values other than [undefined]
    and [null] whose [date]s are all strings, and then they are the year
    ticks of those dates. The ticks of the main chart throw unless every
    point of every series has a string for its date, and then they are the
    year ticks of all those dates. *)
Theorem year_ticks_need_string_dates :
  forall (result : JsVal) (componentName : string) (chartData : list Serie),
    getComponentYearTicks result componentName
    = (if falsy result
          || falsy (Screen.field result "components")
          || falsy (Screen.field (Screen.field result "components")
                      componentName)
       then Some []
       else if Screen.isRecordArray
                 (Screen.field (Screen.field result "components")
                    componentName)
               && Screen.datesAreStrings
                    (Screen.field (Screen.field result "components")
                       componentName)
            then Some (yearTicksOf
                         (Screen.dateStrings
                            (Screen.field (Screen.field result "components")
                               componentName)))
            else None)
    /\ getYearTicks chartData
       = if forallb
              (fun series =>
                 forallb (fun point => Screen.isString (x point))
                         (data series))
              chartData
         then Some (yearTicksOf (Screen.seriesDates chartData))
         else None.
Proof.
  intros result componentName chartData. split.
  - unfold getComponentYearTicks, falsy.
    destruct (truthy result) eqn:Ht; simpl; [ | reflexivity].
    rewrite (getProp_field result _ (truthy_not_nullish result Ht)).
    cbn [bind].
    destruct (truthy (Screen.field result "components")) eqn:Hc; simpl;
      [ | reflexivity].
    rewrite (getProp_field _ componentName (truthy_not_nullish _ Hc)).
    cbn [bind].
    destruct (truthy (Screen.field (Screen.field result "components")
                        componentName)) eqn:Hd; simpl;
      [ | reflexivity].
    apply component_ticks.
  - unfold getYearTicks. rewrite yearTicks_value.
    assert (Hall : forall l : list Serie,
               forallb Screen.isString
                 (flat_map (fun series => map x (data series)) l)
               = forallb
                   (fun series =>
                      forallb (fun point => Screen.isString (x point))
                              (data series)) l).
    { induction l as [ | series l IH]; simpl; [reflexivity | ].
      now rewrite forallb_app, IH, forallb_of_map. }
    assert (Hdates : forall l : list Serie,
               map Screen.stringOf
                 (flat_map (fun series => map x (data series)) l)
               = Screen.seriesDates l).
    { unfold Screen.seriesDates.
      induction l as [ | series l IH]; simpl; [reflexivity | ].
      now rewrite map_app, IH, map_map. }
    now rewrite Hall, Hdates.
Qed.

(** ** One prediction after another *)

(** X19: a prediction overrides the one before it completely: whatever the
    earlier outcome was, the state after the later one is the state the
    later one alone would have produced, so no earlier error or result
    survives. *)
Theorem later_prediction_overrides :
  forall (E : Engine) (st : State) (earlier later : HttpOutcome),
    fetchPrediction (fetchPrediction st earlier) later
    = fetchPrediction st later.
Proof.
  intros E st earlier later.
  unfold fetchPrediction, fetchPrediction_settle.
  destruct (tryBlock earlier); destruct (tryBlock later); reflexivity.
Qed.

(** ** Values without a text *)

Example message_with_own_toString :
  error (fetchPrediction (E := plainEngine) initial
           (Responded 500
              (inr (JObj [("message", JObj [("toString", JStr "x")])]))))
  = Some (conversionErrorMessage (Engine := plainEngine)
            (JObj [("toString", JStr "x")])).
Proof. reflexivity. Qed.

Example mape_with_own_toString_throws :
  metricTiles (E := plainEngine)
    (JObj [("cv_metrics",
            JObj [("mape", JObj [("toString", JStr "x")]);
                  ("mae", JNum 1%float); ("rmse", JNum 2%float)])])
  = None.
Proof. reflexivity. Qed.

Example array_text :
  ToString (E := plainEngine) (JArr [JStr "a"; JNull; JArr [JStr "b"]])
  = Some "a,,b".
Proof. reflexivity. Qed.
